(** * github-description-updater: the three scripts and their properties

    The repository holds three Python scripts, [automate.py] (hosted
    completion backend), [automate_ollama.py] (local model runner) and
    [github_summarizer.py] (report generator).  Each is modelled below in a
    module of its own, over a small model of the Python runtime ([Py]) and of
    the outside world ([World]: the hosting service, the two text backends
    and the clock).

    Conventions.
    - A Python [str] is a list of code points ([N]); [bytes] is a list of
      [byte].  String literals of the source are written [Py.lit "..."] and
      are decoded from the UTF-8 of this file.
    - A function that can raise returns an [outcome]; a function with
      effects lives in the writer monad [M], whose log is the list of
      requests, subprocess runs, sleeps and file writes it performed, in
      program order.  Console output ([print]) is not logged.
    - The [while True] loop of the listing takes fuel. *)

From Stdlib Require Import List ZArith NArith Lia Bool String Ascii.
From Stdlib Require Import Strings.Byte DecimalString.
From Stdlib Require Import Sorting.Sorted Sorting.Permutation.
Import ListNotations.

Set Implicit Arguments.

(* ================================================================== *)
(** * The Python runtime: [str], [bytes] and the library calls used    *)
(* ================================================================== *)

Module Py.

Definition char := N.
Definition str := list char.
Definition bytes := list byte.

(** ** UTF-8 ([bytes.decode("utf-8", errors=...)])

    The decoder reads one byte at a time.  [pending] is a sequence that has
    started and still waits for continuation bytes; [lower]/[upper] bound
    the next continuation byte, which is how overlong forms, surrogates and
    code points above U+10FFFF are refused.  An ill-formed sequence yields
    one [Bad] item for its maximal well-formed prefix, and the offending
    byte is looked at again as the start of a new sequence. *)

Inductive item :=
| Chr (c : char)
| Bad.

Record pending := Pending {
  cp : N;
  needed : nat;
  lower : N;
  upper : N
}.

Definition utf8_start (b : N) : list item * option pending :=
  (if b <? 128 then ([Chr b], None)
   else if (194 <=? b) && (b <=? 223) then
     ([], Some (Pending (N.land b 31) 1 128 191))
   else if (224 <=? b) && (b <=? 239) then
     ([], Some (Pending (N.land b 15) 2
                        (if b =? 224 then 160 else 128)
                        (if b =? 237 then 159 else 191)))
   else if (240 <=? b) && (b <=? 244) then
     ([], Some (Pending (N.land b 7) 3
                        (if b =? 240 then 144 else 128)
                        (if b =? 244 then 143 else 191)))
   else ([Bad], None))%N.

Fixpoint utf8_items (st : option pending) (bs : bytes) : list item :=
  match bs with
  | [] => match st with None => [] | Some _ => [Bad] end
  | b :: bs' =>
    let n := Byte.to_N b in
    match st with
    | None =>
      let (out, st') := utf8_start n in out ++ utf8_items st' bs'
    | Some p =>
      if (lower p <=? n)%N && (n <=? upper p)%N then
        let c := (cp p * 64 + N.land n 63)%N in
        match needed p with
        | S (S k) => utf8_items (Some (Pending c (S k) 128 191)) bs'
        | _ => Chr c :: utf8_items None bs'
        end
      else
        let (out, st') := utf8_start n in Bad :: out ++ utf8_items st' bs'
    end
  end.

Fixpoint chars_ignore (l : list item) : str :=
  match l with
  | [] => []
  | Chr c :: l' => c :: chars_ignore l'
  | Bad :: l' => chars_ignore l'
  end.

Fixpoint chars_strict (l : list item) : option str :=
  match l with
  | [] => Some []
  | Chr c :: l' => option_map (cons c) (chars_strict l')
  | Bad :: _ => None
  end.

(** [b.decode("utf-8", errors="ignore")] *)
Definition decode_utf8_ignore (bs : bytes) : str :=
  chars_ignore (utf8_items None bs).

(** [b.decode("utf-8")]; [None] stands for [UnicodeDecodeError]. *)
Definition decode_utf8 (bs : bytes) : option str :=
  chars_strict (utf8_items None bs).

(** A string literal of the source. *)
Definition lit (s : string) : str :=
  decode_utf8_ignore (list_byte_of_string s).

(** ** Comparison, truth value, slices *)

Fixpoint eqb (s t : str) : bool :=
  match s, t with
  | [], [] => true
  | a :: s', b :: t' => (a =? b)%N && eqb s' t'
  | _, _ => false
  end.

(** [s < t] and [s <= t] on strings: lexicographic on code points. *)
Fixpoint ltb (s t : str) : bool :=
  match s, t with
  | _, [] => false
  | [], _ :: _ => true
  | a :: s', b :: t' => (a <? b)%N || ((a =? b)%N && ltb s' t')
  end.

(** [bool(s)]: the empty string is false. *)
Definition truthy (s : str) : bool :=
  match s with [] => false | _ :: _ => true end.

(** [bool(x)] for an [Optional[str]]: [None] and [""] are false. *)
Definition truthy_opt (o : option str) : bool :=
  match o with None => false | Some s => truthy s end.

(** [len(s)] *)
Definition len (s : str) : nat := List.length s.

(** [s[:n]] *)
Definition slice_to (n : nat) (s : str) : str := firstn n s.

(** [s.startswith(t)] and [s.endswith(t)] *)
Definition startswith (s t : str) : bool := eqb (firstn (len t) s) t.

Definition endswith (s t : str) : bool :=
  eqb (skipn (len s - len t) s) t.

(** ** Whitespace ([str.isspace] on one code point) and stripping *)

Definition isspace (c : char) : bool :=
  ((9 <=? c) && (c <=? 13) || (28 <=? c) && (c <=? 32)
   || (c =? 133) || (c =? 160) || (c =? 5760)
   || (8192 <=? c) && (c <=? 8202)
   || (c =? 8232) || (c =? 8233) || (c =? 8239) || (c =? 8287)
   || (c =? 12288))%N.

(** [s.lstrip()] *)
Fixpoint lstrip (s : str) : str :=
  match s with
  | [] => []
  | c :: s' => if isspace c then lstrip s' else s
  end.

(** [s.rstrip()] *)
Fixpoint rstrip (s : str) : str :=
  match s with
  | [] => []
  | c :: s' =>
    match rstrip s' with
    | [] => if isspace c then [] else [c]
    | r => c :: r
    end
  end.

(** [s.strip()] *)
Definition strip (s : str) : str := rstrip (lstrip s).

Definition newline : char := 10%N.

(** [s.split("\n")[0]]: the text before the first line feed. *)
Fixpoint first_line (s : str) : str :=
  match s with
  | [] => []
  | c :: s' => if (c =? newline)%N then [] else c :: first_line s'
  end.

(** [sep.join(l)] *)
Fixpoint join (sep : str) (l : list str) : str :=
  match l with
  | [] => []
  | [s] => s
  | s :: l' => s ++ sep ++ join sep l'
  end.

(** [str(n)] and [f"{n}"] for an [int]. *)
Definition str_of_Z (z : Z) : str :=
  lit (NilZero.string_of_int (Z.to_int z)).

Definition str_of_nat (n : nat) : str := str_of_Z (Z.of_nat n).

(** ** Base 64 ([base64.b64decode], default arguments)

    A [str] argument is first encoded as ASCII; then the non-strict decoder
    of [binascii.a2b_base64] runs: characters outside the alphabet are
    skipped, a complete pad sequence ends the input, and data that stops in
    the middle of a quad is an error. *)

Definition b64_value (c : char) : option N :=
  (if (65 <=? c) && (c <=? 90) then Some (c - 65)
   else if (97 <=? c) && (c <=? 122) then Some (c - 71)
   else if (48 <=? c) && (c <=? 57) then Some (c + 4)
   else if c =? 43 then Some 62
   else if c =? 47 then Some 63
   else None)%N.

Definition pad : char := 61%N.

Definition to_byte (n : N) : byte :=
  match Byte.of_N (n mod 256) with
  | Some b => b
  | None => x00
  end.

Fixpoint a2b_base64 (quad_pos : nat) (leftchar : N) (pads : nat)
         (s : str) : option bytes :=
  match s with
  | [] => if Nat.eqb quad_pos 0 then Some [] else None
  | c :: s' =>
    if (c =? pad)%N then
      if Nat.leb 2 quad_pos then
        if Nat.leb 4 (quad_pos + S pads) then Some []
        else a2b_base64 quad_pos leftchar (S pads) s'
      else a2b_base64 quad_pos leftchar pads s'
    else
      match b64_value c with
      | None => a2b_base64 quad_pos leftchar pads s'
      | Some v =>
        match quad_pos with
        | 0 => a2b_base64 1 v 0 s'
        | 1 =>
          option_map
            (cons (to_byte (N.lor (N.shiftl leftchar 2) (N.shiftr v 4))))
            (a2b_base64 2 (N.land v 15) 0 s')
        | 2 =>
          option_map
            (cons (to_byte (N.lor (N.shiftl leftchar 4) (N.shiftr v 2))))
            (a2b_base64 3 (N.land v 3) 0 s')
        | _ =>
          option_map
            (cons (to_byte (N.lor (N.shiftl leftchar 6) v)))
            (a2b_base64 0 0 0 s')
        end
      end
  end.

Definition is_ascii (s : str) : bool := forallb (fun c => (c <? 128)%N) s.

(** The two ways [b64decode] raises. *)
Inductive b64_error :=
| NotAscii          (* ValueError: string argument should contain only ASCII *)
| BadPadding.       (* binascii.Error *)

Definition b64decode (s : str) : b64_error + bytes :=
  if is_ascii s then
    match a2b_base64 0 0 0 s with
    | Some bs => inr bs
    | None => inl BadPadding
    end
  else inl NotAscii.

End Py.

(* ================================================================== *)
(** * Outcomes, the effect log and the outside world                   *)
(* ================================================================== *)

(** The exceptions the scripts can meet.  All of them are instances of
    Python's [Exception], which is what the handlers of the generators
    catch. *)
Inductive exn :=
| HTTPError (status : Z)     (* requests: raise_for_status *)
| ValueError                 (* non-ASCII base64 input, strptime mismatch *)
| BinasciiError              (* base64: incorrect padding *)
| UnicodeDecodeError
| TimeoutExpired             (* subprocess.run(timeout=...) *)
| OSError                    (* the runner cannot be started *)
| BackendError.              (* any error of the hosted completion client *)

Inductive outcome (A : Type) :=
| Ret (a : A)
| Raise (e : exn)
| OutOfFuel.

Arguments Ret {A} a.
Arguments Raise {A} e.
Arguments OutOfFuel {A}.

(** [requests.Response], with the body already decoded as the JSON value of
    the endpoint. *)
Record response (A : Type) := Response {
  status_code : Z;
  json : A
}.

(** The body of [GET /repos/{owner}/{repo}/readme]; a key that is missing
    or [null] is [None], as [dict.get] returns it. *)
Record readme_payload := ReadmePayload {
  content : option Py.str;
  encoding : option Py.str
}.

(** The body of [GET .../languages]: language name to byte count, in the
    order of the JSON object. *)
Definition langs := list (Py.str * Z).

(** One entry of the repository listing.  The keys the scripts read with
    [repo[...]] are plain fields; the keys read with [.get] are optional.
    The last three are the keys [github_summarizer.main] adds. *)
Record repo := Repo {
  name : Py.str;
  description : option Py.str;
  html_url : Py.str;
  created_at : Py.str;
  updated_at : Py.str;
  stargazers_count : option Z;
  forks_count : option Z;
  open_issues_count : option Z;
  languages : option langs;
  ai_summary : option Py.str;
  readme_content : option Py.str
}.

(** [subprocess.CompletedProcess] *)
Record completed := Completed {
  returncode : Z;
  stdout : Py.bytes;
  stderr : Py.bytes
}.

(** The JSON body of the description update. *)
Record patch_payload := PatchPayload {
  new_description : Py.str
}.

Inductive event :=
| Get (url : Py.str)
| Patch (url : Py.str) (payload : patch_payload)
| Complete (prompt : Py.str)
| Run (argv : list Py.str) (input : Py.str) (timeout : nat)
| Sleep (seconds : nat)
| WriteFile (filename : Py.str) (text : Py.str).

(** Everything outside the process.  The services answer a request by its
    URL, the backends by their prompt; the configuration is read once from
    the environment. *)
Record World := {
  GITHUB_USERNAME : Py.str;
  OLLAMA_MODEL : Py.str;
  (* requests.get, one view per endpoint *)
  get_repos : Py.str -> response (list repo);
  get_readme_response : Py.str -> response readme_payload;
  get_languages_response : Py.str -> response langs;
  (* openai.Completion.create(...).choices[0].text, or what it raised *)
  completion : Py.str -> exn + Py.str;
  (* subprocess.run(argv, input=..., timeout=...), or what it raised *)
  subprocess_run : list Py.str -> Py.str -> nat -> exn + completed;
  (* datetime.now().strftime("%B %d, %Y") and ...strftime("%Y%m%d_%H%M%S") *)
  today : Py.str;
  timestamp : Py.str;
  (* datetime.strptime(s, "%Y-%m-%dT%H:%M:%SZ").strftime("%B %Y") and
     ...strftime("%B %d, %Y"); [None] is the ValueError of strptime *)
  month_year : Py.str -> option Py.str;
  month_day_year : Py.str -> option Py.str
}.

(** ** The monad: a log of events and an outcome *)

Definition M (A : Type) : Type := list event * outcome A.

Definition ret {A} (a : A) : M A := ([], Ret a).

Definition bind {A B} (m : M A) (k : A -> M B) : M B :=
  match m with
  | (t, Ret a) => let (t', r) := k a in (t ++ t', r)
  | (t, Raise e) => (t, Raise e)
  | (t, OutOfFuel) => (t, OutOfFuel)
  end.

Definition tell (t : list event) : M unit := (t, Ret tt).
Definition raise {A} (e : exn) : M A := ([], Raise e).
Definition out_of_fuel {A} : M A := ([], OutOfFuel).

Definition log {A} (m : M A) : list event := fst m.
Definition result {A} (m : M A) : outcome A := snd m.

Declare Scope monad_scope.
Delimit Scope monad_scope with monad.
Notation "x <- m ;; k" := (bind m (fun x => k))
  (at level 61, m at next level, right associativity) : monad_scope.
Notation "m ;; k" := (bind m (fun _ => k))
  (at level 61, right associativity) : monad_scope.
Local Open Scope monad_scope.

(** [for x in l: body(x)] *)
Fixpoint for_each {A} (body : A -> M unit) (l : list A) : M unit :=
  match l with
  | [] => ret tt
  | x :: l' => body x ;; for_each body l'
  end.

(** ** [sorted(l, key=..., reverse=True)] and [l.sort(key=..., reverse=True)]

    Python's sort is stable, also with [reverse=True]: elements with equal
    keys keep their order.  [lt a b] is [key(a) < key(b)]. *)
Section Sort.
Context {A : Type} (lt : A -> A -> bool).

Fixpoint insert_desc (x : A) (l : list A) : list A :=
  match l with
  | [] => [x]
  | y :: l' => if lt x y then y :: insert_desc x l' else x :: y :: l'
  end.

Fixpoint sort_desc (l : list A) : list A :=
  match l with
  | [] => []
  | x :: l' => insert_desc x (sort_desc l')
  end.
End Sort.

(* ================================================================== *)
(** * The code shared by the three scripts                              *)
(* ================================================================== *)

(** [list_public_repos], [get_readme] and (in the two describers)
    [update_repo_description], the length guard of [generate_description]
    and the loop of [main] are the same text in every script that has
    them. *)
Module Github.

Definition GITHUB_API_BASE : Py.str := Py.lit "https://api.github.com".

(** The statuses [response.raise_for_status()] raises for. *)
Definition http_error (status : Z) : bool :=
  (400 <=? status)%Z && (status <? 600)%Z.

(** [response.raise_for_status()] *)
Definition raise_for_status {A} (r : response A) : M unit :=
  if http_error (status_code r)
  then raise (HTTPError (status_code r))
  else ret tt.

(** [requests.get(url, headers=HEADERS)] *)
Definition requests_get {A} (serve : Py.str -> response A) (url : Py.str)
  : M (response A) :=
  tell [Get url] ;; ret (serve url).

Definition repos_url (username : Py.str) (per_page page : nat) : Py.str :=
  GITHUB_API_BASE ++ Py.lit "/users/" ++ username
    ++ Py.lit "/repos?per_page=" ++ Py.str_of_nat per_page
    ++ Py.lit "&page=" ++ Py.str_of_nat page ++ Py.lit "&type=public".

Definition readme_url (owner repo : Py.str) : Py.str :=
  GITHUB_API_BASE ++ Py.lit "/repos/" ++ owner ++ Py.lit "/" ++ repo
    ++ Py.lit "/readme".

Definition languages_url (owner repo : Py.str) : Py.str :=
  GITHUB_API_BASE ++ Py.lit "/repos/" ++ owner ++ Py.lit "/" ++ repo
    ++ Py.lit "/languages".

Definition repo_url (owner repo : Py.str) : Py.str :=
  GITHUB_API_BASE ++ Py.lit "/repos/" ++ owner ++ Py.lit "/" ++ repo.

Definition per_page : nat := 50.

Section WithWorld.
Variable w : World.

(** The [while True] loop of [list_public_repos], entered with the
    entries gathered so far and the next page number. *)
Fixpoint list_public_repos_from (fuel : nat) (username : Py.str)
         (repos : list repo) (page : nat) : M (list repo) :=
  match fuel with
  | O => out_of_fuel
  | S fuel' =>
    let url := repos_url username per_page page in
    response <- requests_get (get_repos w) url ;;
    raise_for_status response ;;
    let data := json response in
    match data with
    | [] => ret repos
    | _ :: _ =>
      list_public_repos_from fuel' username (repos ++ data) (S page)
    end
  end.

Definition list_public_repos (fuel : nat) (username : Py.str)
  : M (list repo) :=
  list_public_repos_from fuel username [] 1.

Definition get_readme (owner repo : Py.str) : M (option Py.str) :=
  let url := readme_url owner repo in
  response <- requests_get (get_readme_response w) url ;;
  if (status_code response =? 404)%Z then ret None
  else
    raise_for_status response ;;
    let data := json response in
    let content := content data in
    let encoding := encoding data in
    match content, encoding with
    | Some c, Some e =>
      if Py.truthy c && Py.eqb e (Py.lit "base64") then
        match Py.b64decode c with
        | inr raw => ret (Some (Py.decode_utf8_ignore raw))
        | inl Py.NotAscii => raise ValueError
        | inl Py.BadPadding => raise BinasciiError
        end
      else ret None
    | _, _ => ret None
    end.

(** [update_repo_description]: the answer of the service is only
    printed. *)
Definition update_repo_description (owner repo description : Py.str)
  : M unit :=
  let url := repo_url owner repo in
  let payload := PatchPayload description in
  tell [Patch url payload].

(** The guard at the end of [generate_description]:
    [if len(description) > 120:
       description = description[:117].rstrip() + "..."] *)
Definition ensure_not_too_long (description : Py.str) : Py.str :=
  if Nat.ltb 120 (Py.len description)
  then Py.rstrip (Py.slice_to 117 description) ++ Py.lit "..."
  else description.

(** The prompt of [generate_description], after its first sentence. *)
Definition description_prompt (prompt_intro : Py.str)
           (readme_content : option Py.str) : Py.str :=
  if Py.truthy_opt readme_content then
    let snippet :=
      Py.slice_to 1500
        (match readme_content with Some r => r | None => [] end) in
    prompt_intro ++ Py.lit "

The README of the project is:
" ++ snippet ++ Py.lit "

Description:"
  else prompt_intro ++ Py.lit "

No README content is available.

Description:".

(** [repo.get("description") or ""] *)
Definition current_description (r : repo) : Py.str :=
  match description r with
  | Some d => if Py.truthy d then d else []
  | None => []
  end.

(** The body of [for repo in repos] in the [main] of both describers,
    given the generator of the script. *)
Definition describe_repo
           (generate_description : Py.str -> option Py.str -> M Py.str)
           (r : repo) : M unit :=
  let repo_name := name r in
  let current_description := current_description r in
  readme <- get_readme (GITHUB_USERNAME w) repo_name ;;
  new_description <- generate_description repo_name readme ;;
  if Py.truthy new_description
     && negb (Py.eqb new_description current_description)
  then
    update_repo_description (GITHUB_USERNAME w) repo_name new_description ;;
    tell [Sleep 2]
  else ret tt.

Definition describe_all
           (generate_description : Py.str -> option Py.str -> M Py.str)
           (fuel : nat) : M unit :=
  repos <- list_public_repos fuel (GITHUB_USERNAME w) ;;
  for_each (describe_repo generate_description) repos.

End WithWorld.

End Github.

(* ================================================================== *)
(** * automate.py: descriptions from the hosted completion backend     *)
(* ================================================================== *)

Module Automate.
Section WithWorld.
Variable w : World.

Definition list_public_repos := Github.list_public_repos w.
Definition get_readme := Github.get_readme w.
Definition update_repo_description := Github.update_repo_description.

Definition prompt (repo_name : Py.str) (readme_content : option Py.str)
  : Py.str :=
  let prompt_intro :=
    Py.lit "Write a short and clear GitHub repository description (max 120 characters) for a project named '"
      ++ repo_name ++ Py.lit "'." in
  Github.description_prompt prompt_intro readme_content.

Definition generate_description (repo_name : Py.str)
           (readme_content : option Py.str) : M Py.str :=
  let prompt := prompt repo_name readme_content in
  tell [Complete prompt] ;;
  match completion w prompt with
  | inr text =>
    let description := Py.strip text in
    ret (Github.ensure_not_too_long description)
  | inl _ => ret []
  end.

Definition main (fuel : nat) : M unit :=
  Github.describe_all w generate_description fuel.

End WithWorld.
End Automate.

(* ================================================================== *)
(** * automate_ollama.py: descriptions from the local model runner     *)
(* ================================================================== *)

Module AutomateOllama.
Section WithWorld.
Variable w : World.

Definition list_public_repos := Github.list_public_repos w.
Definition get_readme := Github.get_readme w.
Definition update_repo_description := Github.update_repo_description.

Definition prompt (repo_name : Py.str) (readme_content : option Py.str)
  : Py.str :=
  let prompt_intro :=
    Py.lit "Task: Generate a GitHub repo description for '"
      ++ repo_name
      ++ Py.lit "'. STRICT RULES: Max 120 characters. Output format: Plain text only - no quotes, no prefixes, no explanations, no markdown. Just the description sentence." in
  Github.description_prompt prompt_intro readme_content.

Definition argv : list Py.str :=
  [Py.lit "ollama"; Py.lit "run"; OLLAMA_MODEL w].

Definition generate_description (repo_name : Py.str)
           (readme_content : option Py.str) : M Py.str :=
  let prompt := prompt repo_name readme_content in
  tell [Run argv prompt 120] ;;
  match subprocess_run w argv prompt 120 with
  | inr result =>
    if negb (returncode result =? 0)%Z then
      (* the message printed here decodes stderr; when that raises the
         handler below returns the same value *)
      match Py.decode_utf8 (stderr result) with
      | Some _ => ret []
      | None => ret []
      end
    else
      match Py.decode_utf8 (stdout result) with
      | Some text =>
        let description := Py.strip text in
        let description := Py.first_line description in
        ret (Github.ensure_not_too_long description)
      | None => ret []
      end
  | inl _ => ret []
  end.

Definition main (fuel : nat) : M unit :=
  Github.describe_all w generate_description fuel.

End WithWorld.
End AutomateOllama.

(* ================================================================== *)
(** * github_summarizer.py: the portfolio report                       *)
(* ================================================================== *)

Module GithubSummarizer.

Definition sum_Z (l : list Z) : Z := fold_left Z.add l 0%Z.

(** [d.get(key, 0)] *)
Definition get0 (o : option Z) : Z :=
  match o with Some z => z | None => 0%Z end.

(** [key(a) < key(b)] for the key [lambda x: x[1]] *)
Definition count_lt (a b : Py.str * Z) : bool := (snd a <? snd b)%Z.

(** [key(a) < key(b)] for the key
    [lambda x: (x.get('stargazers_count', 0), x['updated_at'])] *)
Definition repo_key_lt (a b : repo) : bool :=
  let sa := get0 (stargazers_count a) in
  let sb := get0 (stargazers_count b) in
  (sa <? sb)%Z || ((sa =? sb)%Z && Py.ltb (updated_at a) (updated_at b)).

Definition with_languages (r : repo) (l : langs) : repo :=
  Repo (name r) (description r) (html_url r) (created_at r) (updated_at r)
       (stargazers_count r) (forks_count r) (open_issues_count r)
       (Some l) (ai_summary r) (readme_content r).

Definition with_ai_summary (r : repo) (s : Py.str) : repo :=
  Repo (name r) (description r) (html_url r) (created_at r) (updated_at r)
       (stargazers_count r) (forks_count r) (open_issues_count r)
       (languages r) (Some s) (readme_content r).

Definition with_readme_content (r : repo) (s : Py.str) : repo :=
  Repo (name r) (description r) (html_url r) (created_at r) (updated_at r)
       (stargazers_count r) (forks_count r) (open_issues_count r)
       (languages r) (ai_summary r) (Some s).

(** [", ".join(...) if top_languages else "Unknown"] over the three
    languages with most bytes. *)
Definition top_languages (languages : langs) : langs :=
  firstn 3 (sort_desc count_lt languages).

Definition lang_info (languages : langs) : Py.str :=
  match top_languages languages with
  | [] => Py.lit "Unknown"
  | top => Py.join (Py.lit ", ") (map fst top)
  end.

(** The string both failure paths of [generate_project_summary] return. *)
Definition fallback_summary (repo_name : Py.str) (languages : langs)
  : Py.str :=
  Py.lit "Repository: " ++ repo_name ++ Py.lit "
Technologies: " ++ lang_info languages ++ Py.lit "
*Summary generation failed*".

Definition format_repo_stats (r : repo) : Py.str :=
  let stats := [] in
  let stats :=
    if (0 <? get0 (stargazers_count r))%Z
    then stats ++ [Py.lit "⭐ " ++ Py.str_of_Z (get0 (stargazers_count r))
                     ++ Py.lit " stars"]
    else stats in
  let stats :=
    if (0 <? get0 (forks_count r))%Z
    then stats ++ [Py.lit "🍴 " ++ Py.str_of_Z (get0 (forks_count r))
                     ++ Py.lit " forks"]
    else stats in
  let stats :=
    if (0 <? get0 (open_issues_count r))%Z
    then stats ++ [Py.lit "📝 " ++ Py.str_of_Z (get0 (open_issues_count r))
                     ++ Py.lit " open issues"]
    else stats in
  match stats with
  | [] => Py.lit "*No public engagement yet*"
  | _ => Py.join (Py.lit " | ") stats
  end.

Section WithWorld.
Variable w : World.

Definition list_public_repos := Github.list_public_repos w.
Definition get_readme := Github.get_readme w.

Definition get_repo_languages (owner repo : Py.str) : M langs :=
  let url := Github.languages_url owner repo in
  response <- Github.requests_get (get_languages_response w) url ;;
  if (status_code response =? 200)%Z then ret (json response)
  else ret [].

Definition argv : list Py.str :=
  [Py.lit "ollama"; Py.lit "run"; OLLAMA_MODEL w].

Definition prompt (repo_name readme_content : Py.str) (languages : langs)
  : Py.str :=
  let lang_info := lang_info languages in
    Py.lit "Task: Analyze this GitHub repository and create a comprehensive project summary.

Repository: " ++ repo_name ++ Py.lit "
Main Technologies: " ++ lang_info ++ Py.lit "

README Content:
" ++ Py.slice_to 2000 readme_content ++ Py.lit "

Please provide a detailed summary in the following format:
- Brief project description (1-2 sentences)
- Key features or functionality
- Technologies/frameworks used
- Purpose or use case

Keep the summary informative but concise (max 300 words). Focus on what the project does and its main value proposition.".

Definition generate_project_summary (repo_name readme_content : Py.str)
           (languages : langs) : M Py.str :=
  let prompt := prompt repo_name readme_content languages in
  tell [Run argv prompt 180] ;;
  match subprocess_run w argv prompt 180 with
  | inr result =>
    if negb (returncode result =? 0)%Z then
      match Py.decode_utf8 (stderr result) with
      | Some _ => ret (fallback_summary repo_name languages)
      | None => ret (fallback_summary repo_name languages)
      end
    else
      match Py.decode_utf8 (stdout result) with
      | Some text => let summary := Py.strip text in ret summary
      | None => ret (fallback_summary repo_name languages)
      end
  | inl _ => ret (fallback_summary repo_name languages)
  end.

(** [datetime.strptime(s, ...).strftime(...)] *)
Definition reformat (f : Py.str -> option Py.str) (s : Py.str)
  : M Py.str :=
  match f s with
  | Some d => ret d
  | None => raise ValueError
  end.

Definition report_header (n : nat) (stars forks : Z) : Py.str :=
  Py.lit "# 🚀 GitHub Projects Portfolio

**Generated on:** " ++ today w ++ Py.lit "  
**Total Projects with Documentation:** " ++ Py.str_of_nat n ++ Py.lit "

---

## 📊 Quick Overview

| Metric | Count |
|--------|-------|
| **Total Documented Projects** | " ++ Py.str_of_nat n ++ Py.lit " |
| **Total Stars** | " ++ Py.str_of_Z stars ++ Py.lit " |
| **Total Forks** | " ++ Py.str_of_Z forks ++ Py.lit " |

---

## 📁 Project Details

".

Definition report_footer : Py.str :=
  Py.lit "
## 🔗 Connect

Visit my GitHub profile: [@" ++ GITHUB_USERNAME w
    ++ Py.lit "](https://github.com/" ++ GITHUB_USERNAME w ++ Py.lit ")

*This report was generated automatically using AI analysis of repository README files.*
".

(** What one turn of [for i, project in enumerate(projects, 1)] appends
    to the report. *)
Definition project_section (i : nat) (project : repo) : M Py.str :=
  let repo_name := name project in
  let repo_url := html_url project in
  created_date <- reformat (month_year w) (created_at project) ;;
  updated_date <- reformat (month_day_year w) (updated_at project) ;;
  let languages :=
    match languages project with Some l => l | None => [] end in
  let lang_badges :=
    map (fun lang => Py.lit "`" ++ lang ++ Py.lit "`")
        (firstn 5 (map fst languages)) in
  let lang_section :=
    match lang_badges with
    | [] => Py.lit "`Unknown`"
    | _ => Py.join (Py.lit " ") lang_badges
    end in
  let stats := format_repo_stats project in
  ret (Py.lit "### " ++ Py.str_of_nat i ++ Py.lit ". [" ++ repo_name
         ++ Py.lit "](" ++ repo_url ++ Py.lit ")

**Technologies:** " ++ lang_section ++ Py.lit "  
**Created:** " ++ created_date ++ Py.lit " | **Last Updated:** "
         ++ updated_date ++ Py.lit "  
**Stats:** " ++ stats ++ Py.lit "

" ++ match ai_summary project with
   | Some s => s
   | None => Py.lit "*Summary not available*"
   end ++ Py.lit "

---

").

Fixpoint report_sections (i : nat) (projects : list repo)
         (report : Py.str) : M Py.str :=
  match projects with
  | [] => ret report
  | project :: rest =>
    section <- project_section i project ;;
    report_sections (S i) rest (report ++ section)
  end.

Definition generate_markdown_report (projects : list repo) : M Py.str :=
  let report :=
    report_header (List.length projects)
      (sum_Z (map (fun p => get0 (stargazers_count p)) projects))
      (sum_Z (map (fun p => get0 (forks_count p)) projects)) in
  report <- report_sections 1 projects report ;;
  ret (report ++ report_footer).

(** The loop [for repo in all_repos] of [main]. *)
Fixpoint collect (all_repos repos_with_readme : list repo)
  : M (list repo) :=
  match all_repos with
  | [] => ret repos_with_readme
  | r :: rest =>
    let repo_name := name r in
    readme <- get_readme (GITHUB_USERNAME w) repo_name ;;
    match readme with
    | Some ((_ :: _) as text) =>
      languages <- get_repo_languages (GITHUB_USERNAME w) repo_name ;;
      let r := with_languages r languages in
      ai_summary <- generate_project_summary repo_name text languages ;;
      let r := with_ai_summary r ai_summary in
      let r := with_readme_content r text in
      tell [Sleep 2] ;;
      collect rest (repos_with_readme ++ [r])
    | _ => collect rest repos_with_readme
    end
  end.

Definition main (fuel : nat) : M unit :=
  all_repos <- list_public_repos fuel (GITHUB_USERNAME w) ;;
  repos_with_readme <- collect all_repos [] ;;
  match repos_with_readme with
  | [] => ret tt
  | _ :: _ =>
    let repos_with_readme := sort_desc repo_key_lt repos_with_readme in
    markdown_report <- generate_markdown_report repos_with_readme ;;
    let filename :=
      Py.lit "github_projects_report_" ++ timestamp w ++ Py.lit ".md" in
    tell [WriteFile filename markdown_report]
  end.

End WithWorld.
End GithubSummarizer.

(* ================================================================== *)
(** * Vocabulary of the statements                                      *)
(* ================================================================== *)

(** The listing answers page [page] of [username] without an HTTP error and
    with the entries [data]. *)
Definition serves (w : World) (username : Py.str) (page : nat)
           (data : list repo) : Prop :=
  let r := get_repos w (Github.repos_url username Github.per_page page) in
  Github.http_error (status_code r) = false /\ json r = data.

(** The encoding [get_readme] decodes. *)
Definition base64 : Py.str := Py.lit "base64".

(** The description updates of a log, in order. *)
Fixpoint patches (t : list event) : list (Py.str * patch_payload) :=
  match t with
  | [] => []
  | Patch url payload :: t' => (url, payload) :: patches t'
  | _ :: t' => patches t'
  end.

(** The files written by a log, in order. *)
Fixpoint writes (t : list event) : list (Py.str * Py.str) :=
  match t with
  | [] => []
  | WriteFile f text :: t' => (f, text) :: writes t'
  | _ :: t' => writes t'
  end.

(** [needle in s] *)
Definition contains (s needle : Py.str) : Prop :=
  exists pre post, s = pre ++ needle ++ post.

(** [enumerate(l, i)] *)
Definition enumerate {A} (i : nat) (l : list A) : list (nat * A) :=
  combine (seq i (List.length l)) l.

(** [sections] are the per-repository sections of the report for
    [projects], numbered from [i]. *)
Definition sections_of (w : World) (i : nat) (projects : list repo)
           (sections : list Py.str) : Prop :=
  Forall2 (fun ip s =>
             GithubSummarizer.project_section w (fst ip) (snd ip)
             = ([], Ret s))
          (enumerate i projects) sections.

(** The readme fetch of the summarizer for [r] returns non-empty text. *)
Definition has_readme (w : World) (r : repo) : bool :=
  match result (Github.get_readme w (GITHUB_USERNAME w) (name r)) with
  | Ret (Some (_ :: _)) => true
  | _ => false
  end.

(** The entry the summarizer keeps for a repository with a readme: the
    listing entry with the languages, the summary and the readme added. *)
Definition enrich (w : World) (r : repo) : repo :=
  let user := GITHUB_USERNAME w in
  let text :=
    match result (Github.get_readme w user (name r)) with
    | Ret (Some t) => t
    | _ => []
    end in
  let languages :=
    match result (GithubSummarizer.get_repo_languages w user (name r)) with
    | Ret l => l
    | _ => []
    end in
  let summary :=
    match result (GithubSummarizer.generate_project_summary
                    w (name r) text languages) with
    | Ret s => s
    | _ => []
    end in
  GithubSummarizer.with_readme_content
    (GithubSummarizer.with_ai_summary
       (GithubSummarizer.with_languages r languages) summary) text.

Definition stars (r : repo) : Z := GithubSummarizer.get0 (stargazers_count r).
Definition forks (r : repo) : Z := GithubSummarizer.get0 (forks_count r).

(** [a] may stand before [b] in the report: it has more stars, or as many
    and an [updated_at] that is not smaller. *)
Definition before (a b : repo) : Prop :=
  (stars b < stars a)%Z \/
  (stars a = stars b /\ Py.ltb (updated_at a) (updated_at b) = false).

Definition hash : Py.char := 35%N.

(** Reading [s] after [k] number signs in a row: [None] when three in a
    row occur (the mark of a section heading), else the number of number
    signs [s] ends with. *)
Fixpoint hash_run (k : nat) (s : Py.str) : option nat :=
  match s with
  | [] => Some k
  | c :: s' =>
    if (c =? hash)%N then
      if Nat.leb 2 k then None else hash_run (S k) s'
    else hash_run 0 s'
  end.

(** [s] holds no three number signs in a row and does not end with
    one. *)
Definition calm (s : Py.str) : Prop := hash_run 0 s = Some 0.

(** Every update of the log is followed at once by a sleep of two
    seconds, and the log sleeps nowhere else. *)
Fixpoint paced (t : list event) : bool :=
  match t with
  | [] => true
  | Patch _ _ :: t' =>
    match t' with
    | Sleep 2 :: t'' => paced t''
    | _ => false
    end
  | Sleep _ :: _ => false
  | _ :: t' => paced t'
  end.

(** The runs of the model runner, the sleeps and the requests of a log. *)
Fixpoint runs (t : list event) : nat :=
  match t with
  | [] => 0
  | Run _ _ _ :: t' => S (runs t')
  | _ :: t' => runs t'
  end.

Fixpoint sleeps (t : list event) : nat :=
  match t with
  | [] => 0
  | Sleep _ :: t' => S (sleeps t')
  | _ :: t' => sleeps t'
  end.

Fixpoint gets (t : list event) : list Py.str :=
  match t with
  | [] => []
  | Get url :: t' => url :: gets t'
  | _ :: t' => gets t'
  end.

(** [s] neither starts nor ends with whitespace. *)
Definition stripped (s : Py.str) : Prop :=
  Py.lstrip s = s /\ Py.rstrip s = s.

(* ================================================================== *)
(** * The start of the scripts: configuration from the environment     *)
(* ================================================================== *)

(** The module-level code of the three scripts: read the environment,
    refuse to start when a required variable is unset or empty, build the
    request headers. *)
Module Startup.

(** [os.environ]; the variables a [.env] file defines. *)
Definition environ := Py.str -> option Py.str.

(** [load_dotenv()]: a variable of the file is taken only when the
    environment does not have it. *)
Definition load_dotenv (file env : environ) : environ :=
  fun key =>
    match env key with
    | Some v => Some v
    | None => file key
    end.

(** [os.getenv(key)] and [os.getenv(key, default)] *)
Definition getenv (env : environ) (key : Py.str) : option Py.str := env key.

Definition getenv_default (env : environ) (key default : Py.str) : Py.str :=
  match env key with
  | Some v => v
  | None => default
  end.

(** [all(l)] over optional strings *)
Definition all (l : list (option Py.str)) : bool := forallb Py.truthy_opt l.

Record settings := Settings {
  token : option Py.str;
  api_key : option Py.str;
  username : option Py.str;
  model : Py.str
}.

Inductive started :=
| Configured (c : settings)
| Refused (message : Py.str).

(** automate.py *)
Definition automate (env : environ) : started :=
  let GITHUB_TOKEN := getenv env (Py.lit "GITHUB_TOKEN") in
  let OPENAI_API_KEY := getenv env (Py.lit "OPENAI_API_KEY") in
  let GITHUB_USERNAME := getenv env (Py.lit "GITHUB_USERNAME") in
  if negb (all [GITHUB_TOKEN; OPENAI_API_KEY; GITHUB_USERNAME])
  then Refused (Py.lit "Please set GITHUB_TOKEN, OPENAI_API_KEY, and GITHUB_USERNAME environment variables.")
  else Configured (Settings GITHUB_TOKEN OPENAI_API_KEY GITHUB_USERNAME []).

(** automate_ollama.py and github_summarizer.py: the same text. *)
Definition local (file env : environ) : started :=
  let env := load_dotenv file env in
  let GITHUB_TOKEN := getenv env (Py.lit "GITHUB_TOKEN") in
  let GITHUB_USERNAME := getenv env (Py.lit "GITHUB_USERNAME") in
  let OLLAMA_MODEL :=
    getenv_default env (Py.lit "OLLAMA_MODEL") (Py.lit "llama3.2:latest") in
  if negb (all [GITHUB_TOKEN; GITHUB_USERNAME])
  then Refused (Py.lit "Please set GITHUB_TOKEN and GITHUB_USERNAME environment variables.")
  else Configured (Settings GITHUB_TOKEN None GITHUB_USERNAME OLLAMA_MODEL).

Definition automate_ollama := local.
Definition github_summarizer := local.

(** [HEADERS] *)
Definition HEADERS (GITHUB_TOKEN : Py.str) : list (Py.str * Py.str) :=
  [(Py.lit "Authorization", Py.lit "token " ++ GITHUB_TOKEN);
   (Py.lit "Accept", Py.lit "application/vnd.github.v3+json")].

End Startup.

(* ================================================================== *)
(** * Worlds for the examples                                           *)
(* ================================================================== *)

Module Demo.

Definition user : Py.str := Py.lit "demo-user".

Definition repo1 : repo :=
  Repo (Py.lit "repo1") (Some (Py.lit "old"))
       (Py.lit "https://github.com/demo-user/repo1")
       (Py.lit "2024-01-01T12:00:00Z") (Py.lit "2024-09-01T12:00:00Z")
       (Some 3%Z) (Some 1%Z) (Some 0%Z) None None None.

Definition repo2 : repo :=
  Repo (Py.lit "repo2") None
       (Py.lit "https://github.com/demo-user/repo2")
       (Py.lit "2023-01-01T12:00:00Z") (Py.lit "2024-09-02T12:00:00Z")
       (Some 5%Z) (Some 2%Z) None None None None.

Definition repo3 : repo :=
  Repo (Py.lit "repo3") (Some (Py.lit "A generated line."))
       (Py.lit "https://github.com/demo-user/repo3")
       (Py.lit "2022-05-01T08:00:00Z") (Py.lit "2024-10-02T12:00:00Z")
       (Some 3%Z) None None None None None.

Definition digit (c : Py.char) : option nat :=
  if ((48 <=? c) && (c <=? 57))%N then Some (N.to_nat (c - 48)) else None.

Definition month_name (m1 m2 : Py.char) : option Py.str :=
  match digit m1, digit m2 with
  | Some a, Some b =>
    match 10 * a + b with
    | O => None
    | S k =>
      nth_error
        (map Py.lit
             ["January"; "February"; "March"; "April"; "May"; "June";
              "July"; "August"; "September"; "October"; "November";
              "December"]%string) k
    end
  | _, _ => None
  end.

(** A clock good enough for the examples: it reads the zero-padded
    timestamps the service emits, [YYYY-MM-DDTHH:MM:SSZ]. *)
Definition clock_month_year (s : Py.str) : option Py.str :=
  match s with
  | y1 :: y2 :: y3 :: y4 :: _ :: m1 :: m2 :: _ =>
    if Nat.eqb (Py.len s) 20 then
      option_map (fun m => m ++ Py.lit " " ++ [y1; y2; y3; y4])
                 (month_name m1 m2)
    else None
  | _ => None
  end.

Definition clock_month_day_year (s : Py.str) : option Py.str :=
  match s with
  | y1 :: y2 :: y3 :: y4 :: _ :: m1 :: m2 :: _ :: d1 :: d2 :: _ =>
    if Nat.eqb (Py.len s) 20 then
      option_map (fun m => m ++ Py.lit " " ++ [d1; d2] ++ Py.lit ", "
                             ++ [y1; y2; y3; y4])
                 (month_name m1 m2)
    else None
  | _ => None
  end.

(** A service with one page of repositories [page1], where the readme of
    every repository but [repo2] is [readme], and the backends answer
    [text] and [run]. *)
Definition make (page1 : list repo) (readme : response readme_payload)
           (languages : response langs)
           (text : exn + Py.str) (run : exn + completed) : World :=
  {| GITHUB_USERNAME := user;
     OLLAMA_MODEL := Py.lit "llama3.2:latest";
     get_repos := fun url =>
       if Py.eqb url (Github.repos_url user Github.per_page 1)
       then Response 200 page1 else Response 200 [];
     get_readme_response := fun url =>
       if Py.eqb url (Github.readme_url user (name repo2))
       then Response 404 (ReadmePayload None None) else readme;
     get_languages_response := fun _ => languages;
     completion := fun _ => text;
     subprocess_run := fun _ _ _ => run;
     today := Py.lit "September 03, 2024";
     timestamp := Py.lit "20240903_101500";
     month_year := clock_month_year;
     month_day_year := clock_month_day_year |}.

Definition hello : response readme_payload :=
  Response 200 (ReadmePayload (Some (Py.lit "SGVsbG8gV29ybGQh"))
                              (Some (Py.lit "base64"))).

Definition python_js : response langs :=
  Response 200 [(Py.lit "Python", 1024%Z); (Py.lit "JavaScript", 256%Z)].

Definition generated : completed :=
  Completed 0 (list_byte_of_string "  A generated line.
And a second one.
") [].

Definition failed : completed :=
  Completed 1 [] (list_byte_of_string "Error running ollama").

(** Everything works. *)
Definition world : World :=
  make [repo1; repo2; repo3] hello python_js
       (inr (Py.lit " A new description. ")) (inr generated).

(** The runner exits with status 1. *)
Definition world_failed : World :=
  make [repo1; repo2; repo3] hello python_js (inl BackendError) (inr failed).

(** A readme whose encoding is not base 64. *)
Definition world_plain : World :=
  make [repo1] (Response 200 (ReadmePayload (Some (Py.lit "SGk="))
                                            (Some (Py.lit "utf-8"))))
       python_js (inl BackendError) (inr failed).

(** 127 characters, the 117th of which is a space. *)
Definition long_text : Py.str :=
  repeat 97%N 116 ++ [32%N] ++ repeat 98%N 10.

Definition long_bytes : Py.bytes :=
  repeat "a"%byte 116 ++ [" "%byte] ++ repeat "b"%byte 10.

Definition world_long : World :=
  make [repo1] hello python_js (inr long_text)
       (inr (Completed 0 long_bytes [])).

(** The languages request is refused; the languages request succeeds with
    an empty mapping. *)
Definition world_forbidden : World :=
  make [repo1; repo2; repo3] hello (Response 403 (json python_js))
       (inr (Py.lit " A new description. ")) (inr generated).

Definition world_no_languages : World :=
  make [repo1; repo2; repo3] hello (Response 200 [])
       (inr (Py.lit " A new description. ")) (inr generated).

(** [w] with another listing. *)
Definition with_listing (w : World)
           (listing : Py.str -> response (list repo)) : World :=
  {| GITHUB_USERNAME := GITHUB_USERNAME w;
     OLLAMA_MODEL := OLLAMA_MODEL w;
     get_repos := listing;
     get_readme_response := get_readme_response w;
     get_languages_response := get_languages_response w;
     completion := completion w;
     subprocess_run := subprocess_run w;
     today := today w;
     timestamp := timestamp w;
     month_year := month_year w;
     month_day_year := month_day_year w |}.

(** The second page of the listing fails with status 500. *)
Definition world_error : World :=
  with_listing world
    (fun url =>
       if Py.eqb url (Github.repos_url user Github.per_page 1)
       then Response 200 [repo1]
       else Response 500 []).

(** Every page of the listing holds [repo1]. *)
Definition world_endless : World :=
  with_listing world (fun _ => Response 200 [repo1]).

(** The readme requests fail with status 500 ([repo2]: 404). *)
Definition world_readme_down : World :=
  make [repo2; repo1; repo3] (Response 500 (ReadmePayload None None))
       python_js (inr (Py.lit "A new description.")) (inr generated).

(** The content of the readme is not base 64. *)
Definition world_corrupt : World :=
  make [repo1] (Response 200 (ReadmePayload (Some (Py.lit "SGVsb"))
                                            (Some (Py.lit "base64"))))
       python_js (inr (Py.lit "A new description.")) (inr generated).

(** The only repository has no readme. *)
Definition world_undocumented : World :=
  make [repo2] hello python_js (inr (Py.lit "A new description."))
       (inr generated).

(** No languages: the request for them is refused. *)
Definition world_refused : World :=
  make [repo1] hello (Response 403 []) (inl BackendError) (inr generated).

(** A timestamp the clock cannot read. *)
Definition repo_undated : repo :=
  Repo (Py.lit "undated") None (Py.lit "https://github.com/demo-user/undated")
       (Py.lit "yesterday") (Py.lit "2024-09-02T12:00:00Z")
       None None None None None None.


(** Two environments: everything set; the API key missing and the model
    set to the empty string. *)
Definition env_full : Startup.environ :=
  fun key =>
    if Py.eqb key (Py.lit "GITHUB_TOKEN") then Some (Py.lit "t0ken")
    else if Py.eqb key (Py.lit "OPENAI_API_KEY") then Some (Py.lit "sk-1")
    else if Py.eqb key (Py.lit "GITHUB_USERNAME") then Some user
    else None.

Definition env_local : Startup.environ :=
  fun key =>
    if Py.eqb key (Py.lit "GITHUB_TOKEN") then Some (Py.lit "t0ken")
    else if Py.eqb key (Py.lit "OLLAMA_MODEL") then Some []
    else None.

Definition dotenv_file : Startup.environ :=
  fun key =>
    if Py.eqb key (Py.lit "GITHUB_USERNAME") then Some user
    else if Py.eqb key (Py.lit "GITHUB_TOKEN") then Some (Py.lit "other")
    else if Py.eqb key (Py.lit "OLLAMA_MODEL") then Some (Py.lit "mistral")
    else None.

Definition no_file : Startup.environ := fun _ => None.

Definition many_languages : langs :=
  [(Py.lit "HTML", 10%Z); (Py.lit "Python", 500%Z); (Py.lit "C", 500%Z);
   (Py.lit "Rust", 900%Z); (Py.lit "Shell", 10%Z)].

(** The section of the report for [repo1], as the first one. *)
Definition section1 : Py.str :=
  match result (GithubSummarizer.project_section
                  world 1 (enrich world repo1)) with
  | Ret s => s
  | _ => []
  end.


Definition report : Py.str :=
  match writes (log (GithubSummarizer.main world 5)) with
  | (_, text) :: _ => text
  | [] => []
  end.

End Demo.

(* ================================================================== *)
(** * Properties                                                        *)
(* ================================================================== *)

Unset Implicit Arguments.

(** ** Strings *)

Lemma eqb_eq (s t : Py.str) : Py.eqb s t = true <-> s = t.
Proof.
  revert t; induction s as [|a s IH]; intros [|b t]; simpl;
    try (split; congruence).
  rewrite andb_true_iff, N.eqb_eq, IH. split.
  - intros [-> ->]; reflexivity.
  - intros H; injection H; auto.
Qed.

Lemma eqb_refl (s : Py.str) : Py.eqb s s = true.
Proof. apply eqb_eq; reflexivity. Qed.

Lemma eqb_neq (s t : Py.str) : Py.eqb s t = false <-> s <> t.
Proof.
  rewrite <- eqb_eq. destruct (Py.eqb s t); split; congruence.
Qed.

Lemma truthy_nonempty (s : Py.str) : Py.truthy s = true <-> s <> [].
Proof. destruct s; simpl; split; congruence. Qed.

Example demo_runs :
  Automate.main Demo.world 5 =
  ([Get (Github.repos_url Demo.user 50 1);
    Get (Github.repos_url Demo.user 50 2);
    Get (Github.readme_url Demo.user (Py.lit "repo1"));
    Complete (Automate.prompt (Py.lit "repo1") (Some (Py.lit "Hello World!")));
    Patch (Github.repo_url Demo.user (Py.lit "repo1"))
          (PatchPayload (Py.lit "A new description."));
    Sleep 2;
    Get (Github.readme_url Demo.user (Py.lit "repo2"));
    Complete (Automate.prompt (Py.lit "repo2") None);
    Patch (Github.repo_url Demo.user (Py.lit "repo2"))
          (PatchPayload (Py.lit "A new description."));
    Sleep 2;
    Get (Github.readme_url Demo.user (Py.lit "repo3"));
    Complete (Automate.prompt (Py.lit "repo3") (Some (Py.lit "Hello World!")));
    Patch (Github.repo_url Demo.user (Py.lit "repo3"))
          (PatchPayload (Py.lit "A new description."));
    Sleep 2], Ret tt).
Proof. vm_compute. reflexivity. Qed.

(** ** The listing *)

Arguments Github.repos_url : simpl never.
Arguments Github.readme_url : simpl never.
Arguments Github.languages_url : simpl never.
Arguments Github.repo_url : simpl never.

(** One turn of the loop of [list_public_repos]. *)
Lemma list_public_repos_from_step w fuel u acc page :
  Github.list_public_repos_from w (S fuel) u acc page =
  let url := Github.repos_url u Github.per_page page in
  let r := get_repos w url in
  if Github.http_error (status_code r)
  then ([Get url], Raise (HTTPError (status_code r)))
  else match json r with
       | [] => ([Get url], Ret acc)
       | _ :: _ =>
         let (t, o) :=
           Github.list_public_repos_from w fuel u (acc ++ json r) (S page) in
         (Get url :: t, o)
       end.
Proof.
  simpl. unfold Github.raise_for_status.
  destruct (Github.http_error _); simpl; [reflexivity|].
  destruct (json _); simpl; [reflexivity|].
  destruct (Github.list_public_repos_from _ _ _ _ _); reflexivity.
Qed.

Lemma list_public_repos_from_pages w u :
  forall pages fuel acc page,
    Forall (fun p => p <> []) pages ->
    (forall i, i < List.length pages ->
               serves w u (page + i) (nth i pages [])) ->
    serves w u (page + List.length pages) [] ->
    List.length pages < fuel ->
    Github.list_public_repos_from w fuel u acc page =
    (map (fun p => Get (Github.repos_url u Github.per_page p))
         (seq page (S (List.length pages))),
     Ret (acc ++ List.concat pages)).
Proof.
  induction pages as [|p pages IH]; intros fuel acc page Hne Hpages Hlast Hfuel;
    (destruct fuel as [|fuel]; [simpl in Hfuel; lia|]);
    rewrite list_public_repos_from_step; cbv zeta.
  - simpl in Hlast. rewrite Nat.add_0_r in Hlast. destruct Hlast as [-> ->].
    simpl. rewrite app_nil_r. reflexivity.
  - destruct (Hpages 0) as [Hs Hj]; [simpl; lia|].
    rewrite Nat.add_0_r in Hs, Hj. simpl in Hj. rewrite Hs, Hj.
    apply Forall_cons_iff in Hne as [Hp Hrest].
    destruct p as [|x p]; [congruence|].
    rewrite (IH fuel (acc ++ x :: p) (S page)); auto.
    + simpl. rewrite <- app_assoc. reflexivity.
    + intros i Hi. specialize (Hpages (S i)). simpl in Hpages.
      rewrite Nat.add_succ_r in Hpages. apply Hpages. lia.
    + simpl in Hlast. rewrite Nat.add_succ_r in Hlast. exact Hlast.
    + simpl in Hfuel. lia.
Qed.

(** C1.  Let the service answer pages 1 .. n with the non-empty pages
    [pages] and page n+1 with an empty one.  Then, given fuel for n+1
    requests, [list_public_repos] requests exactly the pages 1, 2, ..,
    n+1 in this order -- the last one being the first empty page -- and
    returns the entries of the n pages before it, concatenated in the
    order of the pages. *)
Theorem list_public_repos_pages w username pages fuel :
  Forall (fun p => p <> []) pages ->
  (forall i, i < List.length pages ->
             serves w username (S i) (nth i pages [])) ->
  serves w username (S (List.length pages)) [] ->
  List.length pages < fuel ->
  Github.list_public_repos w fuel username =
  (map (fun page => Get (Github.repos_url username 50 page))
       (seq 1 (S (List.length pages))),
   Ret (List.concat pages)).
Proof.
  intros Hne Hpages Hlast Hfuel. unfold Github.list_public_repos.
  apply (list_public_repos_from_pages w username pages fuel [] 1); auto.
Qed.

Lemma list_public_repos_pages_witness :
  Github.list_public_repos Demo.world 2 Demo.user =
  ([Get (Github.repos_url Demo.user 50 1);
    Get (Github.repos_url Demo.user 50 2)],
   Ret [Demo.repo1; Demo.repo2; Demo.repo3]).
Proof.
  apply (list_public_repos_pages Demo.world Demo.user
           [[Demo.repo1; Demo.repo2; Demo.repo3]] 2).
  - repeat constructor; discriminate.
  - intros [|i] Hi; [|simpl in Hi; lia]. split; vm_compute; reflexivity.
  - split; vm_compute; reflexivity.
  - simpl; lia.
Defined.

(** The listing stops at the first HTTP error and raises it. *)
Lemma list_public_repos_from_error w u fuel acc page :
  Github.http_error
    (status_code (get_repos w (Github.repos_url u Github.per_page page)))
  = true ->
  Github.list_public_repos_from w (S fuel) u acc page =
  ([Get (Github.repos_url u Github.per_page page)],
   Raise (HTTPError
            (status_code
               (get_repos w (Github.repos_url u Github.per_page page))))).
Proof.
  intros H. rewrite list_public_repos_from_step. cbv zeta. rewrite H.
  reflexivity.
Qed.

(** Against a service that never sends an empty page the loop does not
    end: it uses up any fuel. *)
Lemma list_public_repos_from_endless w u :
  (forall page, exists x data, serves w u page (x :: data)) ->
  forall fuel acc page,
    result (Github.list_public_repos_from w fuel u acc page) = OutOfFuel.
Proof.
  intros Hall. induction fuel as [|fuel IH]; intros acc page.
  - reflexivity.
  - rewrite list_public_repos_from_step. cbv zeta.
    destruct (Hall page) as (x & data & Hs & Hj). rewrite Hs, Hj.
    specialize (IH (acc ++ x :: data) (S page)).
    destruct (Github.list_public_repos_from _ _ _ _ _). exact IH.
Qed.

(** ** The readme *)

(** [get_readme] as a function of the answer of the service. *)
Lemma get_readme_unfold w owner repo :
  Github.get_readme w owner repo =
  let url := Github.readme_url owner repo in
  let r := get_readme_response w url in
  ([Get url],
   if (status_code r =? 404)%Z then Ret None
   else if Github.http_error (status_code r)
        then Raise (HTTPError (status_code r))
        else match content (json r), encoding (json r) with
             | Some c, Some e =>
               if Py.truthy c && Py.eqb e base64 then
                 match Py.b64decode c with
                 | inr raw => Ret (Some (Py.decode_utf8_ignore raw))
                 | inl Py.NotAscii => Raise ValueError
                 | inl Py.BadPadding => Raise BinasciiError
                 end
               else Ret None
             | _, _ => Ret None
             end).
Proof.
  unfold Github.get_readme, Github.requests_get, Github.raise_for_status,
    base64.
  cbv beta iota zeta delta [bind tell ret raise fst snd app].
  destruct (status_code _ =? 404)%Z; [reflexivity|].
  destruct (Github.http_error _); [reflexivity|].
  destruct (content _) as [c|]; [|reflexivity].
  destruct (encoding _) as [e|]; [|reflexivity].
  destruct (Py.truthy c && Py.eqb e _); [|reflexivity].
  destruct (Py.b64decode c) as [[]|raw]; reflexivity.
Qed.

Lemma get_readme_log w owner repo :
  log (Github.get_readme w owner repo) = [Get (Github.readme_url owner repo)].
Proof. rewrite get_readme_unfold. reflexivity. Qed.

Lemma http_error_404 : Github.http_error 404 = true.
Proof. reflexivity. Qed.

(** C2, amended.  [get_readme] returns the absent marker when the status is
    404; it returns the absent marker exactly when the status is 404 or
    the status is no HTTP error and the payload has no non-empty content
    with encoding "base64"; and for an answer that is no HTTP error, with
    non-empty content of encoding "base64" that decodes to the bytes
    [raw], it returns the UTF-8 decoding of [raw] (undecodable bytes
    dropped). *)
Theorem get_readme_absent_or_decoded w owner repo :
  let r := get_readme_response w (Github.readme_url owner repo) in
  let res := result (Github.get_readme w owner repo) in
  (status_code r = 404%Z -> res = Ret None) /\
  (res = Ret None <->
   status_code r = 404%Z \/
   (Github.http_error (status_code r) = false /\
    ~ (Py.truthy_opt (content (json r)) = true /\
       encoding (json r) = Some base64))) /\
  (forall c raw,
      Github.http_error (status_code r) = false ->
      content (json r) = Some c -> c <> [] ->
      encoding (json r) = Some base64 ->
      Py.b64decode c = inr raw ->
      res = Ret (Some (Py.decode_utf8_ignore raw))).
Proof.
  intros r res. subst res. rewrite get_readme_unfold. cbv zeta. fold r.
  unfold result, snd.
  destruct (Z.eqb_spec (status_code r) 404) as [E|NE].
  - repeat split; auto.
    intros c raw H. rewrite E in H. discriminate.
  - split; [congruence|]. split.
    + destruct (Github.http_error (status_code r)).
      { split; [discriminate|]. intros [H|[H _]]; congruence. }
      destruct (content (json r)) as [c|]; simpl.
      2:{ split; auto. intros _. right. split; auto. intros [H _].
          discriminate. }
      destruct (encoding (json r)) as [e|].
      2:{ split; auto. intros _. right. split; auto. intros [_ H].
          discriminate. }
      destruct (Py.truthy c) eqn:Tc; simpl.
      2:{ split; auto. intros _. right. split; auto. intros [H _].
          discriminate. }
      destruct (Py.eqb e base64) eqn:Ee.
      * apply eqb_eq in Ee. subst e.
        split.
        -- destruct (Py.b64decode c) as [[]|raw]; discriminate.
        -- intros [H|[_ H]]; [congruence|]. exfalso. apply H. auto.
      * split; auto. intros _. right. split; auto. intros [_ H].
        injection H as ->. rewrite eqb_refl in Ee. discriminate.
    + intros c raw Hs Hc Hne He Hd. rewrite Hs, Hc, He, Hd.
      apply truthy_nonempty in Hne. rewrite Hne, eqb_refl. reflexivity.
Qed.

Lemma get_readme_absent_or_decoded_witness :
  result (Github.get_readme Demo.world Demo.user (name Demo.repo1))
  = Ret (Some (Py.lit "Hello World!")).
Proof.
  apply (proj2 (proj2 (get_readme_absent_or_decoded
                         Demo.world Demo.user (name Demo.repo1)))
           (Py.lit "SGVsbG8gV29ybGQh")
           (list_byte_of_string "Hello World!"));
    try (vm_compute; reflexivity).
  vm_compute. discriminate.
Defined.

(** C2 as stated fails: the answer below has status 200 and encoding
    "utf-8", and [get_readme] returns the absent marker for it. *)
Lemma get_readme_absent_without_404 :
  let r := get_readme_response Demo.world_plain
             (Github.readme_url Demo.user (name Demo.repo1)) in
  ~ (result (Github.get_readme Demo.world_plain Demo.user (name Demo.repo1))
     = Ret None <-> status_code r = 404%Z).
Proof.
  intros r [H _].
  assert (E : status_code r = 404%Z) by (apply H; vm_compute; reflexivity).
  vm_compute in E. discriminate.
Qed.

(** C3.  For an answer with status 200 whose encoding is not "base64", or
    whose content is missing or empty, [get_readme] performs its one
    request and returns the absent marker; this holds whatever the
    content is, also where decoding it would raise. *)
Theorem get_readme_not_base64 w owner repo :
  let r := get_readme_response w (Github.readme_url owner repo) in
  status_code r = 200%Z ->
  encoding (json r) <> Some base64 \/
  Py.truthy_opt (content (json r)) = false ->
  Github.get_readme w owner repo =
  ([Get (Github.readme_url owner repo)], Ret None).
Proof.
  intros r Hs H. rewrite get_readme_unfold. cbv zeta. fold r. rewrite Hs.
  simpl. f_equal.
  destruct (content (json r)) as [c|]; [|reflexivity].
  destruct (encoding (json r)) as [e|]; [|reflexivity].
  destruct H as [H|H].
  - destruct (Py.eqb e base64) eqn:Ee.
    + apply eqb_eq in Ee. subst e. congruence.
    + rewrite andb_false_r. reflexivity.
  - simpl in H. rewrite H. reflexivity.
Qed.

Lemma get_readme_not_base64_witness :
  Github.get_readme Demo.world_plain Demo.user (name Demo.repo1) =
  ([Get (Github.readme_url Demo.user (name Demo.repo1))], Ret None).
Proof.
  apply (get_readme_not_base64 Demo.world_plain Demo.user (name Demo.repo1)).
  - vm_compute. reflexivity.
  - left. vm_compute. discriminate.
Defined.

(** ** The languages *)

Lemma get_repo_languages_unfold w owner repo :
  GithubSummarizer.get_repo_languages w owner repo =
  let url := Github.languages_url owner repo in
  let r := get_languages_response w url in
  ([Get url], Ret (if (status_code r =? 200)%Z then json r else [])).
Proof.
  unfold GithubSummarizer.get_repo_languages, Github.requests_get.
  cbv beta iota zeta delta [bind tell ret fst snd app].
  destruct (status_code _ =? 200)%Z; reflexivity.
Qed.

(** C6.  [get_repo_languages] returns the empty mapping for every answer
    whose status is not 200 and the decoded mapping itself for every
    answer with status 200; a refused request and a successful request
    for a repository without languages give the same log and the same
    value. *)
Theorem get_repo_languages_silent w owner repo :
  let r := get_languages_response w (Github.languages_url owner repo) in
  (status_code r <> 200%Z ->
   result (GithubSummarizer.get_repo_languages w owner repo) = Ret []) /\
  (status_code r = 200%Z ->
   result (GithubSummarizer.get_repo_languages w owner repo)
   = Ret (json r)) /\
  (forall w',
      let r' := get_languages_response w' (Github.languages_url owner repo) in
      status_code r <> 200%Z ->
      status_code r' = 200%Z -> json r' = [] ->
      GithubSummarizer.get_repo_languages w owner repo
      = GithubSummarizer.get_repo_languages w' owner repo).
Proof.
  intros r. repeat split.
  - intros H. rewrite get_repo_languages_unfold. cbv zeta. fold r.
    apply Z.eqb_neq in H. rewrite H. reflexivity.
  - intros H. rewrite get_repo_languages_unfold. cbv zeta. fold r.
    rewrite H. reflexivity.
  - intros w' r' H H' J. rewrite !get_repo_languages_unfold. cbv zeta.
    fold r r'. apply Z.eqb_neq in H. rewrite H, H', J. reflexivity.
Qed.

Lemma get_repo_languages_silent_witness :
  result (GithubSummarizer.get_repo_languages
            Demo.world_forbidden Demo.user (name Demo.repo1)) = Ret [] /\
  result (GithubSummarizer.get_repo_languages
            Demo.world Demo.user (name Demo.repo1))
  = Ret [(Py.lit "Python", 1024%Z); (Py.lit "JavaScript", 256%Z)] /\
  GithubSummarizer.get_repo_languages
    Demo.world_forbidden Demo.user (name Demo.repo1)
  = GithubSummarizer.get_repo_languages
      Demo.world_no_languages Demo.user (name Demo.repo1).
Proof.
  split; [|split].
  - apply (proj1 (get_repo_languages_silent
                    Demo.world_forbidden Demo.user (name Demo.repo1))).
    vm_compute. discriminate.
  - apply (proj1 (proj2 (get_repo_languages_silent
                           Demo.world Demo.user (name Demo.repo1)))).
    vm_compute. reflexivity.
  - apply (proj2 (proj2 (get_repo_languages_silent
                           Demo.world_forbidden Demo.user (name Demo.repo1)))
             Demo.world_no_languages).
    + vm_compute. discriminate.
    + vm_compute. reflexivity.
    + vm_compute. reflexivity.
Defined.

(** ** The length guard of the descriptions *)

Lemma rstrip_length (s : Py.str) : Py.len (Py.rstrip s) <= Py.len s.
Proof.
  unfold Py.len. induction s as [|c s IH]; simpl; [lia|].
  destruct (Py.rstrip s) as [|x r]; simpl in *.
  - destruct (Py.isspace c); simpl; lia.
  - lia.
Qed.

Lemma rstrip_snoc (s : Py.str) (c : Py.char) :
  Py.isspace c = false -> Py.rstrip (s ++ [c]) = s ++ [c].
Proof.
  intros Hc. induction s as [|a s IH]; simpl.
  - rewrite Hc. reflexivity.
  - rewrite IH. destruct s; reflexivity.
Qed.

Lemma rstrip_snoc_space (s : Py.str) (c : Py.char) :
  Py.isspace c = true -> Py.rstrip (s ++ [c]) = Py.rstrip s.
Proof.
  intros Hc. induction s as [|a s IH]; simpl.
  - rewrite Hc. reflexivity.
  - rewrite IH. reflexivity.
Qed.

Lemma slice_to_snoc (n : nat) (s : Py.str) :
  n < Py.len s ->
  Py.slice_to (S n) s = Py.slice_to n s ++ [nth n s 0%N].
Proof.
  unfold Py.slice_to, Py.len. revert s.
  induction n as [|n IH]; intros [|c s] H; simpl in *; try lia.
  - reflexivity.
  - rewrite <- IH by lia. reflexivity.
Qed.

Lemma ellipsis_length : Py.len (Py.lit "...") = 3.
Proof. reflexivity. Qed.

Lemma len_app (s t : Py.str) : Py.len (s ++ t) = Py.len s + Py.len t.
Proof. apply length_app. Qed.

(** C4, amended.  A description of more than 120 characters becomes its
    first 117 characters with trailing whitespace removed, followed by the
    three-character ellipsis; the result has at most 120 characters, and
    exactly 120 -- the first 117 followed by the ellipsis -- when the
    117th character is no whitespace.  A description of at most 120
    characters is returned unchanged. *)
Theorem ensure_not_too_long_spec (d : Py.str) :
  (120 < Py.len d ->
   Github.ensure_not_too_long d
   = Py.rstrip (Py.slice_to 117 d) ++ Py.lit "..." /\
   Py.len (Github.ensure_not_too_long d) <= 120 /\
   (Py.isspace (nth 116 d 0%N) = false ->
    Github.ensure_not_too_long d = Py.slice_to 117 d ++ Py.lit "..." /\
    Py.len (Github.ensure_not_too_long d) = 120)) /\
  (Py.len d <= 120 -> Github.ensure_not_too_long d = d).
Proof.
  unfold Github.ensure_not_too_long. split.
  - intros H. apply Nat.ltb_lt in H as H'. rewrite H'.
    assert (L : Py.len (Py.slice_to 117 d) = 117).
    { unfold Py.len, Py.slice_to in *. rewrite length_firstn. lia. }
    split; [reflexivity|]. split.
    + rewrite len_app, ellipsis_length.
      pose proof (rstrip_length (Py.slice_to 117 d)). lia.
    + intros Hsp. rewrite (slice_to_snoc 116 d) by lia.
      rewrite rstrip_snoc by exact Hsp.
      rewrite <- (slice_to_snoc 116 d) by lia.
      split; [reflexivity|]. rewrite len_app, ellipsis_length, L.
      reflexivity.
  - intros H. apply Nat.ltb_ge in H. rewrite H. reflexivity.
Qed.

Lemma ensure_not_too_long_spec_witness :
  Github.ensure_not_too_long (repeat 97%N 121)
  = repeat 97%N 117 ++ Py.lit "..." /\
  Github.ensure_not_too_long (Py.lit "short") = Py.lit "short".
Proof.
  split.
  - apply (proj2 (proj2 (proj1 (ensure_not_too_long_spec (repeat 97%N 121))
                           ltac:(vm_compute; lia)))
             ltac:(vm_compute; reflexivity)).
  - apply (proj2 (ensure_not_too_long_spec (Py.lit "short"))).
    vm_compute. lia.
Defined.

(** C4 as stated fails: the text below has 127 characters, a space at
    position 117, and comes out with 119 characters, which are not its
    first 117 followed by the ellipsis.  The local generator returns this
    very string when the runner prints the text. *)
Lemma ensure_not_too_long_shorter :
  120 < Py.len Demo.long_text /\
  Github.ensure_not_too_long Demo.long_text
  <> Py.slice_to 117 Demo.long_text ++ Py.lit "..." /\
  Py.len (Github.ensure_not_too_long Demo.long_text) = 119 /\
  result (AutomateOllama.generate_description
            Demo.world_long (name Demo.repo1) None)
  = Ret (repeat 97%N 116 ++ Py.lit "...").
Proof.
  split; [vm_compute; lia|]. split; [|split].
  - intros H.
    apply (f_equal Py.len) in H. vm_compute in H. discriminate.
  - vm_compute. reflexivity.
  - vm_compute. reflexivity.
Qed.

(** ** The generators *)

(** [generate_description] of [automate.py] as a function of what the
    completion call gives. *)
Lemma automate_generate_description_unfold w repo_name readme :
  Automate.generate_description w repo_name readme =
  let prompt := Automate.prompt repo_name readme in
  ([Complete prompt],
   Ret (match completion w prompt with
        | inr text => Github.ensure_not_too_long (Py.strip text)
        | inl _ => []
        end)).
Proof.
  unfold Automate.generate_description.
  cbv beta iota zeta delta [bind tell ret fst snd app].
  destruct (completion w _); reflexivity.
Qed.

(** The same for [automate_ollama.py] and the runner. *)
Lemma ollama_generate_description_unfold w repo_name readme :
  AutomateOllama.generate_description w repo_name readme =
  let prompt := AutomateOllama.prompt repo_name readme in
  ([Run (AutomateOllama.argv w) prompt 120],
   Ret (match subprocess_run w (AutomateOllama.argv w) prompt 120 with
        | inr run =>
          if (returncode run =? 0)%Z then
            match Py.decode_utf8 (stdout run) with
            | Some text =>
              Github.ensure_not_too_long (Py.first_line (Py.strip text))
            | None => []
            end
          else []
        | inl _ => []
        end)).
Proof.
  unfold AutomateOllama.generate_description.
  cbv beta iota zeta delta [bind tell ret fst snd app].
  destruct (subprocess_run w _ _ _) as [e|run]; [reflexivity|].
  destruct (returncode run =? 0)%Z; simpl.
  - destruct (Py.decode_utf8 (stdout run)); reflexivity.
  - destruct (Py.decode_utf8 (stderr run)); reflexivity.
Qed.

Lemma ensure_not_too_long_bound (d : Py.str) :
  Py.len (Github.ensure_not_too_long d) <= 120.
Proof.
  unfold Github.ensure_not_too_long.
  destruct (Nat.ltb 120 (Py.len d)) eqn:E.
  - rewrite len_app, ellipsis_length.
    pose proof (rstrip_length (Py.slice_to 117 d)) as H.
    assert (Py.len (Py.slice_to 117 d) <= 117)
      by (unfold Py.len, Py.slice_to; rewrite length_firstn; lia).
    lia.
  - apply Nat.ltb_ge. exact E.
Qed.

(** X25.  Whatever the backends do -- an answer of any length, an error,
    a non-zero exit, bytes that do not decode -- [generate_description]
    of both describers returns a description of at most 120 characters
    and raises nothing. *)
Lemma generate_description_bounded w repo_name readme :
  (exists d, result (Automate.generate_description w repo_name readme)
             = Ret d /\ Py.len d <= 120) /\
  (exists d, result (AutomateOllama.generate_description w repo_name readme)
             = Ret d /\ Py.len d <= 120).
Proof.
  split.
  - rewrite automate_generate_description_unfold. cbv zeta.
    eexists; split; [reflexivity|].
    destruct (completion w _); [simpl; lia|apply ensure_not_too_long_bound].
  - rewrite ollama_generate_description_unfold. cbv zeta.
    eexists; split; [reflexivity|].
    destruct (subprocess_run w _ _ _) as [e|run]; [simpl; lia|].
    destruct (returncode run =? 0)%Z; [|simpl; lia].
    destruct (Py.decode_utf8 (stdout run));
      [apply ensure_not_too_long_bound|simpl; lia].
Qed.

(** ** The write decision of the describers *)

Lemma patches_app (t t' : list event) :
  patches (t ++ t') = patches t ++ patches t'.
Proof.
  induction t as [|e t IH]; simpl; [reflexivity|].
  destruct e; simpl; rewrite IH; reflexivity.
Qed.

(** One turn of the loop of [main], for a readme fetch that returns and a
    generator that returns. *)
Lemma describe_repo_unfold w gen r readme t2 new :
  result (Github.get_readme w (GITHUB_USERNAME w) (name r)) = Ret readme ->
  gen (name r) readme = (t2, Ret new) ->
  Github.describe_repo w gen r =
  ([Get (Github.readme_url (GITHUB_USERNAME w) (name r))] ++ t2 ++
   (if Py.truthy new && negb (Py.eqb new (Github.current_description r))
    then [Patch (Github.repo_url (GITHUB_USERNAME w) (name r))
                (PatchPayload new); Sleep 2]
    else []),
   Ret tt).
Proof.
  intros Hreadme Hgen. unfold Github.describe_repo.
  rewrite get_readme_unfold in *. cbv zeta in *.
  unfold result, snd in Hreadme. rewrite Hreadme.
  unfold bind at 1. rewrite Hgen.
  unfold Github.update_repo_description.
  cbv beta iota zeta delta [bind tell ret fst snd].
  destruct (Py.truthy new && negb (Py.eqb new (Github.current_description r)));
    rewrite ?app_nil_r; reflexivity.
Qed.



Example write_decision_same :
  patches (log (Github.describe_repo
                  Demo.world (AutomateOllama.generate_description Demo.world)
                  Demo.repo3)) = [] /\
  result (AutomateOllama.generate_description
            Demo.world (name Demo.repo3) (Some (Py.lit "Hello World!")))
  = Ret (Py.lit "A generated line.") /\
  Github.current_description Demo.repo3 = Py.lit "A generated line.".
Proof. split; [|split]; vm_compute; reflexivity. Qed.

Example write_decision_empty :
  patches (log (Github.describe_repo
                  Demo.world_failed
                  (AutomateOllama.generate_description Demo.world_failed)
                  Demo.repo1)) = [] /\
  patches (log (Github.describe_repo
                  Demo.world_failed
                  (Automate.generate_description Demo.world_failed)
                  Demo.repo2)) = [].
Proof. split; vm_compute; reflexivity. Qed.

(** [generate_project_summary] as a function of what the runner gives. *)
Lemma generate_project_summary_unfold w repo_name readme languages :
  GithubSummarizer.generate_project_summary w repo_name readme languages =
  let prompt := GithubSummarizer.prompt repo_name readme languages in
  ([Run (GithubSummarizer.argv w) prompt 180],
   Ret (match subprocess_run w (GithubSummarizer.argv w) prompt 180 with
        | inr run =>
          if (returncode run =? 0)%Z then
            match Py.decode_utf8 (stdout run) with
            | Some text => Py.strip text
            | None => GithubSummarizer.fallback_summary repo_name languages
            end
          else GithubSummarizer.fallback_summary repo_name languages
        | inl _ => GithubSummarizer.fallback_summary repo_name languages
        end)).
Proof.
  unfold GithubSummarizer.generate_project_summary.
  cbv beta iota zeta delta [bind tell ret fst snd app].
  destruct (subprocess_run w _ _ _) as [e|run]; [reflexivity|].
  destruct (returncode run =? 0)%Z; simpl.
  - destruct (Py.decode_utf8 (stdout run)); reflexivity.
  - destruct (Py.decode_utf8 (stderr run)); reflexivity.
Qed.

(** The fallback summary carries the repository name and the language
    line of the prompt. *)
Lemma fallback_summary_contains repo_name languages :
  contains (GithubSummarizer.fallback_summary repo_name languages) repo_name
  /\ contains (GithubSummarizer.fallback_summary repo_name languages)
              (GithubSummarizer.lang_info languages).
Proof.
  unfold GithubSummarizer.fallback_summary. split.
  - exists (Py.lit "Repository: "). eexists. reflexivity.
  - exists (Py.lit "Repository: " ++ repo_name ++ Py.lit "
Technologies: "). eexists. rewrite <- !app_assoc. reflexivity.
Qed.

(** The language line names the (at most three) languages with most
    bytes, separated by a comma and a space; without languages it reads
    "Unknown". *)
Lemma lang_info_cases languages :
  (languages = [] -> GithubSummarizer.lang_info languages = Py.lit "Unknown")
  /\ (languages <> [] ->
      GithubSummarizer.lang_info languages
      = Py.join (Py.lit ", ")
                (map fst (firstn 3 (sort_desc GithubSummarizer.count_lt
                                              languages)))).
Proof.
  unfold GithubSummarizer.lang_info, GithubSummarizer.top_languages. split.
  - intros ->. reflexivity.
  - intros H.
    destruct (firstn 3 (sort_desc GithubSummarizer.count_lt languages))
      as [|x l] eqn:E; [|reflexivity].
    exfalso. apply H. destruct languages as [|a languages]; [reflexivity|].
    simpl in E.
    destruct (sort_desc GithubSummarizer.count_lt languages) as [|y s];
      simpl in E; [discriminate|].
    destruct (GithubSummarizer.count_lt a y); discriminate.
Qed.

(** C9.  The generators of the local backend.  When the runner raises,
    exits with a non-zero status, or prints bytes that do not decode,
    [generate_description] returns the empty string and
    [generate_project_summary] returns the fallback summary, which
    contains the repository name and the language line (the top three
    languages, or "Unknown"); and in every case both return a value, they
    raise nothing. *)
Theorem local_generator_failure w repo_name readme_opt readme languages :
  let run_d := subprocess_run w (AutomateOllama.argv w)
                 (AutomateOllama.prompt repo_name readme_opt) 120 in
  let run_s := subprocess_run w (GithubSummarizer.argv w)
                 (GithubSummarizer.prompt repo_name readme languages) 180 in
  let failed (run : exn + completed) :=
      (exists e, run = inl e) \/
      (exists c, run = inr c /\ returncode c <> 0%Z) \/
      (exists c, run = inr c /\ Py.decode_utf8 (stdout c) = None) in
  let fallback := GithubSummarizer.fallback_summary repo_name languages in
  (failed run_d ->
   result (AutomateOllama.generate_description w repo_name readme_opt)
   = Ret []) /\
  (failed run_s ->
   result (GithubSummarizer.generate_project_summary
             w repo_name readme languages) = Ret fallback) /\
  contains fallback repo_name /\
  contains fallback (GithubSummarizer.lang_info languages) /\
  (exists d,
      result (AutomateOllama.generate_description w repo_name readme_opt)
      = Ret d) /\
  (exists s,
      result (GithubSummarizer.generate_project_summary
                w repo_name readme languages) = Ret s).
Proof.
  intros run_d run_s failed fallback.
  split; [|split; [|split; [|split; [|split]]]].
  - rewrite ollama_generate_description_unfold. cbv zeta. fold run_d.
    unfold result, snd.
    intros [[e ->]|[(c & -> & H)|(c & -> & H)]]; [reflexivity| |].
    + apply Z.eqb_neq in H. rewrite H. reflexivity.
    + rewrite H. destruct (returncode c =? 0)%Z; reflexivity.
  - rewrite generate_project_summary_unfold. cbv zeta. fold run_s.
    unfold result, snd.
    intros [[e ->]|[(c & -> & H)|(c & -> & H)]]; [reflexivity| |].
    + apply Z.eqb_neq in H. rewrite H. reflexivity.
    + rewrite H. destruct (returncode c =? 0)%Z; reflexivity.
  - apply fallback_summary_contains.
  - apply fallback_summary_contains.
  - rewrite ollama_generate_description_unfold. eexists. reflexivity.
  - rewrite generate_project_summary_unfold. eexists. reflexivity.
Qed.

Lemma local_generator_failure_witness :
  result (AutomateOllama.generate_description
            Demo.world_failed (name Demo.repo1) None) = Ret [] /\
  result (GithubSummarizer.generate_project_summary
            Demo.world_failed (name Demo.repo1) (Py.lit "Hello World!")
            (json Demo.python_js))
  = Ret (Py.lit "Repository: repo1
Technologies: Python, JavaScript
*Summary generation failed*").
Proof.
  pose proof (local_generator_failure
                Demo.world_failed (name Demo.repo1) None
                (Py.lit "Hello World!") (json Demo.python_js)) as H.
  cbv zeta in H. destruct H as (Hd & Hs & _). split.
  - apply Hd. right. left. exists Demo.failed.
    split; [vm_compute; reflexivity|vm_compute; discriminate].
  - rewrite Hs.
    + vm_compute. reflexivity.
    + right. left. exists Demo.failed.
      split; [vm_compute; reflexivity|vm_compute; discriminate].
Defined.

(** ** Sorting in descending order *)

Section SortFacts.
Context {A : Type} (lt : A -> A -> bool).

(** [a] is not below [b]. *)
Let ge (a b : A) : Prop := lt a b = false.

Lemma insert_desc_perm x l : Permutation (insert_desc lt x l) (x :: l).
Proof.
  induction l as [|y l IH]; simpl; [reflexivity|].
  destruct (lt x y); [|reflexivity].
  rewrite IH. apply perm_swap.
Qed.

Lemma sort_desc_perm l : Permutation (sort_desc lt l) l.
Proof.
  induction l as [|x l IH]; simpl; [reflexivity|].
  rewrite insert_desc_perm. constructor. exact IH.
Qed.

Hypothesis lt_asym : forall a b, lt a b = true -> lt b a = false.
Hypothesis ge_trans : forall a b c, ge a b -> ge b c -> ge a c.

Lemma insert_desc_sorted x l :
  StronglySorted ge l -> StronglySorted ge (insert_desc lt x l).
Proof.
  induction 1 as [|y l Hl IH Hy]; simpl.
  - repeat constructor.
  - destruct (lt x y) eqn:E.
    + constructor; [exact IH|].
      rewrite (insert_desc_perm x l). constructor; [|exact Hy].
      apply lt_asym. exact E.
    + constructor; [constructor; assumption|].
      constructor; [exact E|].
      rewrite Forall_forall in *. intros z Hz.
      apply (ge_trans x y z); [exact E|]. apply Hy. exact Hz.
Qed.

Lemma sort_desc_sorted l : StronglySorted ge (sort_desc lt l).
Proof.
  induction l as [|x l IH]; simpl; [constructor|].
  apply insert_desc_sorted. exact IH.
Qed.

(** The sort is stable: the elements that compare equal to [a] keep
    their order. *)
Let same (a b : A) : bool := negb (lt a b) && negb (lt b a).

Lemma insert_desc_stable a x l :
  filter (same a) (insert_desc lt x l) = filter (same a) (x :: l).
Proof.
  induction l as [|y l IH]; [reflexivity|].
  simpl insert_desc. destruct (lt x y) eqn:E; [|reflexivity].
  simpl filter in *. rewrite IH.
  destruct (same a x) eqn:Sx; [|reflexivity].
  destruct (same a y) eqn:Sy; [|reflexivity].
  exfalso. unfold same in Sx, Sy.
  apply andb_true_iff in Sx as [Hax Hxa], Sy as [Hay Hya].
  apply negb_true_iff in Hax, Hxa, Hay, Hya.
  pose proof (ge_trans x a y Hxa Hay) as H. unfold ge in H. congruence.
Qed.

Lemma sort_desc_stable a l :
  filter (same a) (sort_desc lt l) = filter (same a) l.
Proof.
  induction l as [|x l IH]; [reflexivity|].
  simpl sort_desc. rewrite insert_desc_stable. simpl. rewrite IH.
  reflexivity.
Qed.
End SortFacts.






(** The two sort keys of the summarizer. *)
Lemma count_lt_asym a b :
  GithubSummarizer.count_lt a b = true -> GithubSummarizer.count_lt b a = false.
Proof. unfold GithubSummarizer.count_lt. lia. Qed.

Lemma count_ge_trans a b c :
  GithubSummarizer.count_lt a b = false ->
  GithubSummarizer.count_lt b c = false ->
  GithubSummarizer.count_lt a c = false.
Proof. unfold GithubSummarizer.count_lt. lia. Qed.




(** ** The monad *)

Lemma bind_ret_l {A B} (a : A) (k : A -> M B) : bind (ret a) k = k a.
Proof. unfold bind, ret. destruct (k a). reflexivity. Qed.

Lemma log_bind {A B} (m : M A) (k : A -> M B) :
  log (bind m k)
  = log m ++ match result m with Ret a => log (k a) | _ => [] end.
Proof.
  destruct m as [t [a|e|]]; unfold bind, log, result; simpl.
  - destruct (k a); reflexivity.
  - rewrite app_nil_r; reflexivity.
  - rewrite app_nil_r; reflexivity.
Qed.

Lemma result_bind {A B} (m : M A) (k : A -> M B) :
  result (bind m k)
  = match result m with
    | Ret a => result (k a)
    | Raise e => Raise e
    | OutOfFuel => OutOfFuel
    end.
Proof.
  destruct m as [t [a|e|]]; unfold bind, result; simpl; try reflexivity.
  destruct (k a); reflexivity.
Qed.


Lemma pair_log_result {A} (m : M A) : m = (log m, result m).
Proof. destruct m; reflexivity. Qed.

Lemma writes_app (t t' : list event) :
  writes (t ++ t') = writes t ++ writes t'.
Proof.
  induction t as [|e t IH]; simpl; [reflexivity|].
  destruct e; simpl; rewrite IH; reflexivity.
Qed.


Lemma list_public_repos_from_writes w u :
  forall fuel acc page,
    writes (log (Github.list_public_repos_from w fuel u acc page)) = [].
Proof.
  induction fuel as [|fuel IH]; intros acc page; [reflexivity|].
  rewrite list_public_repos_from_step. cbv zeta.
  destruct (Github.http_error _); [reflexivity|].
  destruct (json _) as [|x data]; [reflexivity|].
  specialize (IH (acc ++ x :: data) (S page)).
  destruct (Github.list_public_repos_from _ _ _ _ _). exact IH.
Qed.

(** ** The report *)

Lemma project_section_log w i p :
  log (GithubSummarizer.project_section w i p) = [].
Proof.
  unfold GithubSummarizer.project_section, GithubSummarizer.reformat.
  destruct (month_year w _); [|reflexivity]. rewrite bind_ret_l.
  destruct (month_day_year w _); [|reflexivity]. rewrite bind_ret_l.
  reflexivity.
Qed.




(** ** The loop of the summarizer *)

Lemma get_readme_pair w owner repo :
  Github.get_readme w owner repo =
  ([Get (Github.readme_url owner repo)],
   result (Github.get_readme w owner repo)).
Proof.
  rewrite (pair_log_result (Github.get_readme w owner repo)) at 1.
  rewrite get_readme_log. reflexivity.
Qed.

Lemma get_readme_in_fuel w owner repo :
  result (Github.get_readme w owner repo) <> OutOfFuel.
Proof.
  rewrite get_readme_unfold. cbv zeta. unfold result, snd.
  destruct (status_code _ =? 404)%Z; [discriminate|].
  destruct (Github.http_error _); [discriminate|].
  destruct (content _) as [c|]; [|discriminate].
  destruct (encoding _) as [e|]; [|discriminate].
  destruct (Py.truthy c && Py.eqb e base64); [|discriminate].
  destruct (Py.b64decode c) as [[]|raw]; discriminate.
Qed.

Lemma bind_pair {A B} (t : list event) (a : A) (k : A -> M B) :
  bind (t, Ret a) k = (t ++ log (k a), result (k a)).
Proof. unfold bind. destruct (k a). reflexivity. Qed.

Lemma log_pair {A} (t : list event) (o : outcome A) : log (t, o) = t.
Proof. reflexivity. Qed.

Lemma result_pair {A} (t : list event) (o : outcome A) : result (t, o) = o.
Proof. reflexivity. Qed.

(** A turn of the loop for a repository with a readme. *)
Lemma collect_kept w r rest acc c s :
  result (Github.get_readme w (GITHUB_USERNAME w) (name r))
  = Ret (Some (c :: s)) ->
  has_readme w r = true /\
  exists t,
    writes t = [] /\
    GithubSummarizer.collect w (r :: rest) acc =
    (t ++ log (GithubSummarizer.collect w rest (acc ++ [enrich w r])),
     result (GithubSummarizer.collect w rest (acc ++ [enrich w r]))).
Proof.
  intros H. split; [unfold has_readme; rewrite H; reflexivity|].
  pose proof (get_repo_languages_unfold w (GITHUB_USERNAME w) (name r)) as HL.
  cbv zeta in HL.
  set (L := if (status_code _ =? 200)%Z then _ else _) in HL.
  pose proof (generate_project_summary_unfold w (name r) (c :: s) L) as HS.
  cbv zeta in HS.
  set (S := match subprocess_run w _ _ _ with inl _ => _ | inr _ => _ end)
    in HS.
  unfold enrich. cbv zeta. rewrite H, HL, result_pair, HS, result_pair.
  simpl GithubSummarizer.collect. unfold GithubSummarizer.get_readme.
  rewrite get_readme_pair, H, bind_pair. cbv beta iota.
  rewrite HL, bind_pair. cbv beta.
  rewrite HS, bind_pair. cbv beta.
  destruct (GithubSummarizer.collect w rest _) as [t o].
  rewrite !log_pair, !result_pair.
  exists [Get (Github.readme_url (GITHUB_USERNAME w) (name r));
          Get (Github.languages_url (GITHUB_USERNAME w) (name r));
          Run (GithubSummarizer.argv w)
              (GithubSummarizer.prompt (name r) (c :: s) L) 180;
          Sleep 2].
  split; reflexivity.
Qed.

(** A turn of the loop for a repository without one. *)
Lemma collect_skipped w r rest acc :
  result (Github.get_readme w (GITHUB_USERNAME w) (name r)) = Ret None \/
  result (Github.get_readme w (GITHUB_USERNAME w) (name r)) = Ret (Some []) ->
  has_readme w r = false /\
  GithubSummarizer.collect w (r :: rest) acc =
  (Get (Github.readme_url (GITHUB_USERNAME w) (name r))
       :: log (GithubSummarizer.collect w rest acc),
   result (GithubSummarizer.collect w rest acc)).
Proof.
  intros H. split; [unfold has_readme; destruct H as [-> | ->]; reflexivity|].
  simpl GithubSummarizer.collect. unfold GithubSummarizer.get_readme.
  rewrite get_readme_pair.
  destruct (GithubSummarizer.collect w rest acc) as [t o].
  destruct H as [-> | ->]; reflexivity.
Qed.



Lemma enrich_fields w r :
  name (enrich w r) = name r /\
  html_url (enrich w r) = html_url r /\
  created_at (enrich w r) = created_at r /\
  updated_at (enrich w r) = updated_at r /\
  stars (enrich w r) = stars r /\
  forks (enrich w r) = forks r.
Proof. split; [|split; [|split; [|split; [|split]]]]; reflexivity. Qed.

(** ** The run of the summarizer *)






Lemma collect_writes w :
  forall all_repos acc,
    writes (log (GithubSummarizer.collect w all_repos acc)) = [].
Proof.
  induction all_repos as [|r rest IH]; intros acc; [reflexivity|].
  destruct (result (Github.get_readme w (GITHUB_USERNAME w) (name r)))
    as [[[|c s]|]|e|] eqn:E.
  - destruct (collect_skipped w r rest acc (or_intror E)) as [_ ->].
    rewrite log_pair. apply IH.
  - destruct (collect_kept w r rest acc c s E) as [_ (t & Ht & ->)].
    rewrite log_pair, writes_app, Ht. apply IH.
  - destruct (collect_skipped w r rest acc (or_introl E)) as [_ ->].
    rewrite log_pair. apply IH.
  - simpl GithubSummarizer.collect. unfold GithubSummarizer.get_readme.
    rewrite get_readme_pair, E. reflexivity.
  - exfalso. exact (get_readme_in_fuel w _ _ E).
Qed.

Lemma report_sections_log w :
  forall projects i report,
    log (GithubSummarizer.report_sections w i projects report) = [].
Proof.
  induction projects as [|p rest IH]; intros i report; [reflexivity|].
  simpl. rewrite log_bind, project_section_log.
  destruct (result (GithubSummarizer.project_section w i p));
    [apply IH|reflexivity|reflexivity].
Qed.

Lemma generate_markdown_report_log w projects :
  log (GithubSummarizer.generate_markdown_report w projects) = [].
Proof.
  unfold GithubSummarizer.generate_markdown_report.
  rewrite log_bind, report_sections_log.
  destruct (result (GithubSummarizer.report_sections w 1 projects _));
    reflexivity.
Qed.


(** ** The text of the report *)

Lemma contains_prefix (a s needle : Py.str) :
  contains s needle -> contains (a ++ s) needle.
Proof.
  intros (pre & post & ->). exists (a ++ pre), post.
  rewrite <- app_assoc. reflexivity.
Qed.

Lemma contains_suffix (s b needle : Py.str) :
  contains s needle -> contains (s ++ b) needle.
Proof.
  intros (pre & post & ->). exists pre, (post ++ b).
  rewrite <- !app_assoc. reflexivity.
Qed.

Lemma startswith_split (s t : Py.str) :
  Py.startswith s t = true -> exists rest, s = t ++ rest.
Proof.
  unfold Py.startswith. intros H. apply eqb_eq in H.
  exists (skipn (Py.len t) s). rewrite <- H at 1. symmetry.
  apply firstn_skipn.
Qed.

Lemma endswith_split (s t : Py.str) :
  Py.endswith s t = true -> exists front, s = front ++ t.
Proof.
  unfold Py.endswith. intros H. apply eqb_eq in H.
  exists (firstn (Py.len s - Py.len t) s). rewrite <- H at 2. symmetry.
  apply firstn_skipn.
Qed.

(** A field between two literals: the end of the one, the field, the
    start of the other. *)
Lemma contains_between (L x R post K1 K2 : Py.str) :
  Py.endswith L K1 = true -> Py.startswith R K2 = true ->
  contains (L ++ x ++ R ++ post) (K1 ++ x ++ K2).
Proof.
  intros HL HR. apply endswith_split in HL as (P & ->).
  apply startswith_split in HR as (Q & ->).
  exists P, (Q ++ post). rewrite <- !app_assoc. reflexivity.
Qed.

Lemma contains_between_end (L x R K1 K2 : Py.str) :
  Py.endswith L K1 = true -> Py.startswith R K2 = true ->
  contains (L ++ x ++ R) (K1 ++ x ++ K2).
Proof.
  intros HL HR. rewrite <- (app_nil_r R).
  apply contains_between; assumption.
Qed.

(** The three lines of the overview table. *)
Lemma report_header_lines w n s f :
  let header := GithubSummarizer.report_header w n s f in
  contains header (Py.lit "| **Total Documented Projects** | "
                     ++ Py.str_of_nat n ++ Py.lit " |") /\
  contains header (Py.lit "| **Total Stars** | "
                     ++ Py.str_of_Z s ++ Py.lit " |") /\
  contains header (Py.lit "| **Total Forks** | "
                     ++ Py.str_of_Z f ++ Py.lit " |").
Proof.
  cbv zeta. unfold GithubSummarizer.report_header. split; [|split].
  - do 4 apply contains_prefix.
    apply contains_between; vm_compute; reflexivity.
  - do 6 apply contains_prefix.
    apply contains_between; vm_compute; reflexivity.
  - do 8 apply contains_prefix.
    apply contains_between_end; vm_compute; reflexivity.
Qed.

(** ** Section headings *)

Lemma hash_run_app (a b : Py.str) :
  forall k,
    hash_run k (a ++ b)
    = match hash_run k a with
      | Some k' => hash_run k' b
      | None => None
      end.
Proof.
  induction a as [|c a IH]; intros k; simpl; [reflexivity|].
  destruct (c =? hash)%N; [|apply IH].
  destruct k as [|[|k]]; try reflexivity; apply IH.
Qed.

Lemma hash_run_three (post : Py.str) :
  forall k, hash_run k (hash :: hash :: hash :: post) = None.
Proof.
  intros k. simpl. change (hash =? hash)%N with true. cbv iota.
  destruct k as [|[|k]]; reflexivity.
Qed.

Lemma hash_run_heading (pre post : Py.str) :
  forall k, hash_run k (pre ++ hash :: hash :: hash :: post) = None.
Proof.
  induction pre as [|c pre IH]; intros k; [apply hash_run_three|].
  simpl. destruct (c =? hash)%N; [|apply IH].
  destruct k as [|[|k]]; try reflexivity; apply IH.
Qed.

Lemma calm_app (a b : Py.str) : calm a -> calm b -> calm (a ++ b).
Proof.
  unfold calm. intros Ha Hb. rewrite hash_run_app, Ha. exact Hb.
Qed.

Lemma calm_free (s : Py.str) : Forall (fun c => c <> hash) s -> calm s.
Proof.
  unfold calm. induction 1 as [|c s Hc _ IH]; [reflexivity|].
  simpl. apply N.eqb_neq in Hc. rewrite Hc. exact IH.
Qed.

Lemma calm_no_heading (s : Py.str) :
  calm s -> ~ contains s (Py.lit "### ").
Proof.
  unfold calm. intros H (pre & post & E).
  change (Py.lit "### ") with [hash; hash; hash; 32%N] in E.
  simpl in E. rewrite E, hash_run_heading in H. discriminate.
Qed.

Ltac calm_pieces :=
  repeat match goal with
         | |- calm (_ ++ _) => apply calm_app
         end;
  try (apply calm_free; assumption);
  try (vm_compute; reflexivity).

(** Every section starts with the heading mark. *)
Lemma project_section_heading w i p s :
  GithubSummarizer.project_section w i p = ([], Ret s) ->
  Py.startswith s (Py.lit "### ") = true.
Proof.
  unfold GithubSummarizer.project_section, GithubSummarizer.reformat.
  destruct (month_year w _); [|discriminate]. rewrite bind_ret_l.
  destruct (month_day_year w _); [|discriminate]. rewrite bind_ret_l.
  intros H. injection H as <-. reflexivity.
Qed.

(** C7.  For the empty list [generate_markdown_report] returns the header
    with all three figures 0 followed at once by the footer: the text
    holds the line "| **Total Documented Projects** | 0 |", there is no
    section in it, and -- when neither the date nor the user name holds a
    number sign -- the heading mark of a section occurs nowhere. *)
Theorem empty_report w :
  let text := GithubSummarizer.report_header w 0 0 0
              ++ GithubSummarizer.report_footer w in
  GithubSummarizer.generate_markdown_report w [] = ([], Ret text) /\
  contains text (Py.lit "| **Total Documented Projects** | 0 |") /\
  (forall sections, sections_of w 1 [] sections -> sections = []) /\
  (Forall (fun c => c <> hash) (today w) ->
   Forall (fun c => c <> hash) (GITHUB_USERNAME w) ->
   ~ contains text (Py.lit "### ")).
Proof.
  cbv zeta. split; [|split; [|split]].
  - reflexivity.
  - apply contains_suffix.
    apply (proj1 (report_header_lines w 0 0 0)).
  - intros sections H. inversion H. reflexivity.
  - intros Ht Hu. apply calm_no_heading.
    unfold GithubSummarizer.report_header, GithubSummarizer.report_footer.
    calm_pieces.
Qed.

Lemma empty_report_witness :
  ~ contains (GithubSummarizer.report_header Demo.world 0 0 0
              ++ GithubSummarizer.report_footer Demo.world)
             (Py.lit "### ").
Proof.
  apply (proj2 (proj2 (proj2 (empty_report Demo.world)))).
  - vm_compute. repeat constructor; discriminate.
  - vm_compute. repeat constructor; discriminate.
Defined.

(** ** The summary report *)








Example demo_report_figures :
  contains Demo.report (Py.lit "| **Total Stars** | 6 |") /\
  contains Demo.report (Py.lit "| **Total Forks** | 1 |") /\
  contains Demo.report (Py.lit "| **Total Documented Projects** | 2 |") /\
  map name (sort_desc GithubSummarizer.repo_key_lt
                      (map (enrich Demo.world)
                           (filter (has_readme Demo.world)
                                   [Demo.repo1; Demo.repo2; Demo.repo3])))
  = [Py.lit "repo3"; Py.lit "repo1"].
Proof.
  pose (header := GithubSummarizer.report_header Demo.world 2 6 1).
  assert (E : Demo.report = header ++ skipn (Py.len header) Demo.report)
    by (vm_compute; reflexivity).
  rewrite E. subst header.
  split; [|split; [|split]].
  - apply contains_suffix.
    exact (proj1 (proj2 (report_header_lines Demo.world 2 6 1))).
  - apply contains_suffix.
    exact (proj2 (proj2 (report_header_lines Demo.world 2 6 1))).
  - apply contains_suffix.
    exact (proj1 (report_header_lines Demo.world 2 6 1)).
  - vm_compute. reflexivity.
Qed.

(** ** The whole run of a describer *)

Lemma list_public_repos_from_patches w u :
  forall fuel acc page,
    patches (log (Github.list_public_repos_from w fuel u acc page)) = [].
Proof.
  induction fuel as [|fuel IH]; intros acc page; [reflexivity|].
  rewrite list_public_repos_from_step. cbv zeta.
  destruct (Github.http_error _); [reflexivity|].
  destruct (json _) as [|x data]; [reflexivity|].
  specialize (IH (acc ++ x :: data) (S page)).
  destruct (Github.list_public_repos_from _ _ _ _ _). exact IH.
Qed.

(** Both generators return, and log no update. *)
Lemma generator_returns w gen repo_name readme :
  gen = Automate.generate_description w \/
  gen = AutomateOllama.generate_description w ->
  exists t new, gen repo_name readme = (t, Ret new) /\ patches t = [].
Proof.
  intros [-> | ->].
  - rewrite automate_generate_description_unfold. cbv zeta.
    eexists _, _. split; reflexivity.
  - rewrite ollama_generate_description_unfold. cbv zeta.
    eexists _, _. split; reflexivity.
Qed.

Lemma describe_repo_returns w gen r readme :
  gen = Automate.generate_description w \/
  gen = AutomateOllama.generate_description w ->
  result (Github.get_readme w (GITHUB_USERNAME w) (name r)) = Ret readme ->
  result (Github.describe_repo w gen r) = Ret tt.
Proof.
  intros Hgen Hr.
  destruct (generator_returns w gen (name r) readme Hgen) as (t & new & E & _).
  rewrite (describe_repo_unfold w gen r readme t new Hr E). reflexivity.
Qed.


(** ** The summarizer does write its report *)

Lemma collect_returns w :
  forall all_repos acc,
    (forall r, In r all_repos ->
               exists readme,
                 result (Github.get_readme w (GITHUB_USERNAME w) (name r))
                 = Ret readme) ->
    result (GithubSummarizer.collect w all_repos acc)
    = Ret (acc ++ map (enrich w) (filter (has_readme w) all_repos)).
Proof.
  induction all_repos as [|r rest IH]; intros acc Hall.
  - simpl. rewrite app_nil_r. reflexivity.
  - assert (Hrest : forall r', In r' rest ->
                               exists readme,
                                 result (Github.get_readme
                                           w (GITHUB_USERNAME w) (name r'))
                                 = Ret readme)
      by (intros r' Hr'; apply Hall; right; exact Hr').
    destruct (Hall r (or_introl eq_refl)) as [[[|c s]|] E].
    + destruct (collect_skipped w r rest acc (or_intror E)) as [Hh ->].
      rewrite result_pair. simpl filter. rewrite Hh. apply IH, Hrest.
    + destruct (collect_kept w r rest acc c s E) as [Hh (t & _ & ->)].
      rewrite result_pair. simpl filter. rewrite Hh.
      rewrite (IH (acc ++ [enrich w r]) Hrest), <- app_assoc. reflexivity.
    + destruct (collect_skipped w r rest acc (or_introl E)) as [Hh ->].
      rewrite result_pair. simpl filter. rewrite Hh. apply IH, Hrest.
Qed.

Lemma report_sections_returns w :
  forall projects i report,
    (forall p, In p projects ->
               month_year w (created_at p) <> None /\
               month_day_year w (updated_at p) <> None) ->
    exists text,
      result (GithubSummarizer.report_sections w i projects report)
      = Ret text.
Proof.
  induction projects as [|p rest IH]; intros i report Hall.
  - eexists. reflexivity.
  - simpl. rewrite result_bind.
    destruct (Hall p (or_introl eq_refl)) as [Hc Hu].
    unfold GithubSummarizer.project_section at 1, GithubSummarizer.reformat.
    destruct (month_year w (created_at p)); [|congruence].
    rewrite bind_ret_l.
    destruct (month_day_year w (updated_at p)); [|congruence].
    rewrite bind_ret_l. unfold ret. rewrite result_pair.
    apply IH. intros p' Hp'. apply Hall. right. exact Hp'.
Qed.


(** ** The library calls on the examples of the tests *)

Example lit_ascii : Py.lit "Hi!" = [72; 105; 33]%N.
Proof. reflexivity. Qed.

Example lit_rocket : Py.lit "🚀 a" = [128640; 32; 97]%N.
Proof. reflexivity. Qed.

Example b64_hello :
  Py.b64decode (Py.lit "SGVsbG8gV29ybGQh")
  = inr (list_byte_of_string "Hello World!").
Proof. reflexivity. Qed.

Example b64_padded :
  Py.b64decode (Py.lit "TXkgUkVBRE1FIQ==")
  = inr (list_byte_of_string "My README!").
Proof. reflexivity. Qed.

Example b64_lines :
  Py.b64decode (Py.lit "SGVsbG8g
V29ybGQh
") = inr (list_byte_of_string "Hello World!").
Proof. reflexivity. Qed.

Example b64_truncated : Py.b64decode (Py.lit "SGVsb") = inl Py.BadPadding.
Proof. reflexivity. Qed.

Example utf8_ignore_drops :
  Py.decode_utf8_ignore ["a"%byte; xff; "b"%byte; xc3] = Py.lit "ab" /\
  Py.decode_utf8 ["a"%byte; xff; "b"%byte] = None.
Proof. split; reflexivity. Qed.

Example str_of_Z_neg : Py.str_of_Z (-12) = Py.lit "-12".
Proof. reflexivity. Qed.

Example strip_both : Py.strip (Py.lit "  a b
 ") = Py.lit "a b".
Proof. reflexivity. Qed.

Example format_repo_stats_all :
  GithubSummarizer.format_repo_stats
    (Repo [] None [] [] [] (Some 10%Z) (Some 2%Z) (Some 4%Z) None None None)
  = Py.lit "⭐ 10 stars | 🍴 2 forks | 📝 4 open issues" /\
  GithubSummarizer.format_repo_stats
    (Repo [] None [] [] [] None None None None None None)
  = Py.lit "*No public engagement yet*".
Proof. split; vm_compute; reflexivity. Qed.

(* ================================================================== *)
(** * Further properties of the scripts                                 *)
(* ================================================================== *)

(** ** The listing: errors and endless listings *)

Lemma list_public_repos_from_fails w u :
  forall pages fuel acc page,
    Forall (fun p => p <> []) pages ->
    (forall i, i < List.length pages ->
               serves w u (page + i) (nth i pages [])) ->
    Github.http_error
      (status_code (get_repos w (Github.repos_url u Github.per_page
                                                  (page + List.length pages))))
    = true ->
    List.length pages < fuel ->
    Github.list_public_repos_from w fuel u acc page =
    (map (fun p => Get (Github.repos_url u Github.per_page p))
         (seq page (S (List.length pages))),
     Raise (HTTPError
              (status_code
                 (get_repos w (Github.repos_url u Github.per_page
                                                (page + List.length pages)))))).
Proof.
  induction pages as [|p pages IH]; intros fuel acc page Hne Hpages Hlast Hfuel;
    (destruct fuel as [|fuel]; [simpl in Hfuel; lia|]).
  - simpl in *. rewrite Nat.add_0_r in *.
    apply list_public_repos_from_error. exact Hlast.
  - rewrite list_public_repos_from_step. cbv zeta.
    destruct (Hpages 0) as [Hs Hj]; [simpl; lia|].
    rewrite Nat.add_0_r in Hs, Hj. simpl in Hj. rewrite Hs, Hj.
    apply Forall_cons_iff in Hne as [Hp Hrest].
    destruct p as [|x p]; [congruence|].
    replace (page + List.length ((x :: p) :: pages))
      with (S page + List.length pages) in * by (simpl; lia).
    rewrite (IH fuel (acc ++ x :: p) (S page)); auto.
    + intros i Hi. specialize (Hpages (S i)). simpl in Hpages.
      rewrite Nat.add_succ_r in Hpages. apply Hpages. lia.
    + simpl in Hfuel. lia.
Qed.

(** X1.  When the pages 1 .. n of the listing are non-empty and page n+1
    answers with an HTTP error status, [list_public_repos] requests the
    pages 1 .. n+1 once each, in order, and raises the error of that
    status: nothing is retried and the entries already gathered are not
    returned. *)
Theorem list_public_repos_http_error w username pages fuel :
  Forall (fun p => p <> []) pages ->
  (forall i, i < List.length pages ->
             serves w username (S i) (nth i pages [])) ->
  Github.http_error
    (status_code (get_repos w (Github.repos_url username 50
                                                (S (List.length pages)))))
  = true ->
  List.length pages < fuel ->
  Github.list_public_repos w fuel username =
  (map (fun page => Get (Github.repos_url username 50 page))
       (seq 1 (S (List.length pages))),
   Raise (HTTPError
            (status_code
               (get_repos w (Github.repos_url username 50
                                              (S (List.length pages))))))).
Proof.
  intros Hne Hpages Hlast Hfuel. unfold Github.list_public_repos.
  apply (list_public_repos_from_fails w username pages fuel [] 1); auto.
Qed.

Lemma list_public_repos_http_error_witness :
  Github.list_public_repos Demo.world_error 7 Demo.user =
  ([Get (Github.repos_url Demo.user 50 1);
    Get (Github.repos_url Demo.user 50 2)],
   Raise (HTTPError 500)).
Proof.
  apply (list_public_repos_http_error Demo.world_error Demo.user
                                      [[Demo.repo1]] 7).
  - repeat constructor; discriminate.
  - intros [|i] Hi; [|simpl in Hi; lia]. split; vm_compute; reflexivity.
  - vm_compute. reflexivity.
  - simpl; lia.
Defined.

Lemma list_public_repos_from_unbounded w u :
  (forall page, exists x data, serves w u page (x :: data)) ->
  forall fuel acc page,
    Github.list_public_repos_from w fuel u acc page =
    (map (fun p => Get (Github.repos_url u Github.per_page p))
         (seq page fuel),
     OutOfFuel).
Proof.
  intros Hall. induction fuel as [|fuel IH]; intros acc page.
  - reflexivity.
  - rewrite list_public_repos_from_step. cbv zeta.
    destruct (Hall page) as (x & data & Hs & Hj). rewrite Hs, Hj.
    rewrite (IH (acc ++ x :: data) (S page)). reflexivity.
Qed.

(** X2.  [list_public_repos] has no bound on the number of pages: against
    a service that answers every page with at least one entry it goes on
    requesting page after page and never returns -- with fuel for [fuel]
    requests it makes all of them, for the pages 1 .. fuel, and is still
    running. *)
Theorem list_public_repos_endless w username fuel :
  (forall page, exists x data, serves w username page (x :: data)) ->
  Github.list_public_repos w fuel username =
  (map (fun page => Get (Github.repos_url username 50 page)) (seq 1 fuel),
   OutOfFuel).
Proof.
  intros Hall. unfold Github.list_public_repos.
  apply (list_public_repos_from_unbounded w username Hall fuel [] 1).
Qed.

Lemma list_public_repos_endless_witness :
  Github.list_public_repos Demo.world_endless 3 Demo.user =
  ([Get (Github.repos_url Demo.user 50 1);
    Get (Github.repos_url Demo.user 50 2);
    Get (Github.repos_url Demo.user 50 3)],
   OutOfFuel).
Proof.
  apply (list_public_repos_endless Demo.world_endless Demo.user 3).
  intros page. exists Demo.repo1, []. split; vm_compute; reflexivity.
Defined.

(** ** The readme: what raises *)


Example get_readme_raises_examples :
  result (Github.get_readme Demo.world_readme_down Demo.user
                            (name Demo.repo1))
  = Raise (HTTPError 500) /\
  result (Github.get_readme Demo.world_corrupt Demo.user (name Demo.repo1))
  = Raise BinasciiError.
Proof. split; vm_compute; reflexivity. Qed.

(** ** The prompt of the describers *)

Lemma description_prompt_some intro r :
  r <> [] ->
  Github.description_prompt intro (Some r) =
  intro ++ Py.lit "

The README of the project is:
" ++ Py.slice_to 1500 r ++ Py.lit "

Description:".
Proof.
  intros H. unfold Github.description_prompt.
  destruct r; [congruence|reflexivity].
Qed.

(** X4.  Only the first 1500 characters of a readme reach the prompt of
    [generate_description]: two non-empty readmes that agree on their
    first 1500 characters make both describers behave alike (same
    request to the backend, same description), and the prompt is at most
    1546 characters longer than its first sentence. *)
Theorem description_prompt_excerpt w repo_name r1 r2 :
  r1 <> [] -> r2 <> [] ->
  Py.slice_to 1500 r1 = Py.slice_to 1500 r2 ->
  Automate.generate_description w repo_name (Some r1)
  = Automate.generate_description w repo_name (Some r2) /\
  AutomateOllama.generate_description w repo_name (Some r1)
  = AutomateOllama.generate_description w repo_name (Some r2) /\
  forall intro,
    Py.len (Github.description_prompt intro (Some r1))
    <= Py.len intro + 1546.
Proof.
  intros H1 H2 E.
  assert (P : forall intro,
             Github.description_prompt intro (Some r1)
             = Github.description_prompt intro (Some r2)).
  { intros intro. rewrite !description_prompt_some by assumption.
    rewrite E. reflexivity. }
  split; [|split].
  - rewrite !automate_generate_description_unfold. cbv zeta.
    unfold Automate.prompt. rewrite P. reflexivity.
  - rewrite !ollama_generate_description_unfold. cbv zeta.
    unfold AutomateOllama.prompt. rewrite P. reflexivity.
  - intros intro. rewrite description_prompt_some by assumption.
    rewrite !len_app.
    assert (Py.len (Py.slice_to 1500 r1) <= 1500)
      by (unfold Py.len, Py.slice_to; rewrite length_firstn; lia).
    match goal with
    | |- _ + (Py.len ?a + (_ + Py.len ?b)) <= _ =>
      change (Py.len a) with 32; change (Py.len b) with 14
    end.
    lia.
Qed.

Lemma description_prompt_excerpt_witness :
  Automate.generate_description
    Demo.world (name Demo.repo1) (Some (repeat 97%N 1500 ++ Py.lit "x"))
  = Automate.generate_description
      Demo.world (name Demo.repo1) (Some (repeat 97%N 1500 ++ Py.lit "yz")).
Proof.
  apply (description_prompt_excerpt
           Demo.world (name Demo.repo1)
           (repeat 97%N 1500 ++ Py.lit "x")
           (repeat 97%N 1500 ++ Py.lit "yz")).
  - vm_compute. discriminate.
  - vm_compute. discriminate.
  - vm_compute. reflexivity.
Defined.

(** A missing readme and an empty one give the same prompt: both
    describers then ask for a description from the repository name
    alone. *)
Theorem description_prompt_no_readme w repo_name :
  Automate.generate_description w repo_name (Some [])
  = Automate.generate_description w repo_name None /\
  AutomateOllama.generate_description w repo_name (Some [])
  = AutomateOllama.generate_description w repo_name None /\
  Automate.prompt repo_name None
  = Py.lit "Write a short and clear GitHub repository description (max 120 characters) for a project named '"
      ++ repo_name ++ Py.lit "'.

No README content is available.

Description:".
Proof.
  assert (P : forall intro,
             Github.description_prompt intro (Some [])
             = Github.description_prompt intro None)
    by (intros intro; unfold Github.description_prompt;
        simpl Py.truthy_opt; cbv iota; reflexivity).
  split; [|split].
  - rewrite !automate_generate_description_unfold. cbv zeta.
    unfold Automate.prompt. rewrite P. reflexivity.
  - rewrite !ollama_generate_description_unfold. cbv zeta.
    unfold AutomateOllama.prompt. rewrite P. reflexivity.
  - unfold Automate.prompt, Github.description_prompt.
    simpl Py.truthy_opt. cbv iota. rewrite <- !app_assoc.
    do 2 apply f_equal. vm_compute. reflexivity.
Qed.

(** ** The shape of the descriptions *)

Lemma rstrip_prefix (s : Py.str) : exists t, s = Py.rstrip s ++ t.
Proof.
  induction s as [|c s [t IH]]; [exists []; reflexivity|].
  simpl. destruct (Py.rstrip s) as [|x r] eqn:E.
  - destruct (Py.isspace c).
    + exists (c :: s). reflexivity.
    + exists s. reflexivity.
  - exists t. simpl. f_equal. exact IH.
Qed.

Lemma in_rstrip c (s : Py.str) : In c (Py.rstrip s) -> In c s.
Proof.
  intros H. destruct (rstrip_prefix s) as [t E]. rewrite E.
  apply in_or_app. left. exact H.
Qed.

Lemma in_slice_to c n (s : Py.str) : In c (Py.slice_to n s) -> In c s.
Proof.
  unfold Py.slice_to. intros H.
  rewrite <- (firstn_skipn n s). apply in_or_app. left. exact H.
Qed.

Lemma first_line_no_newline (s : Py.str) :
  ~ In Py.newline (Py.first_line s).
Proof.
  induction s as [|c s IH]; simpl; [tauto|].
  destruct (N.eqb_spec c Py.newline) as [E|NE]; simpl; [tauto|].
  intros [H|H]; [congruence|exact (IH H)].
Qed.

Lemma ensure_not_too_long_keeps c (d : Py.str) :
  In c (Github.ensure_not_too_long d) -> In c d \/ c = 46%N.
Proof.
  unfold Github.ensure_not_too_long.
  destruct (Nat.ltb 120 (Py.len d)); [|auto].
  intros H. apply in_app_or in H as [H|H].
  - left. apply (in_slice_to c 117), in_rstrip, H.
  - right. change (Py.lit "...") with [46; 46; 46]%N in H.
    simpl in H. intuition congruence.
Qed.

(** X5.  The description [generate_description] of automate_ollama.py
    returns is a single line: whatever the runner prints, the result
    holds no line feed. *)
Theorem ollama_description_single_line w repo_name readme d :
  result (AutomateOllama.generate_description w repo_name readme) = Ret d ->
  ~ In Py.newline d.
Proof.
  rewrite ollama_generate_description_unfold. cbv zeta.
  unfold result, snd. intros H. injection H as <-.
  destruct (subprocess_run w _ _ _) as [e|run]; [simpl; tauto|].
  destruct (returncode run =? 0)%Z; [|simpl; tauto].
  destruct (Py.decode_utf8 (stdout run)) as [text|]; [|simpl; tauto].
  intros H. apply ensure_not_too_long_keeps in H as [H|H].
  - exact (first_line_no_newline _ H).
  - discriminate.
Qed.

Lemma ollama_description_single_line_witness :
  ~ In Py.newline (Py.lit "A generated line.").
Proof.
  apply (ollama_description_single_line
           Demo.world (name Demo.repo1) None (Py.lit "A generated line.")).
  vm_compute. reflexivity.
Defined.

Lemma lstrip_head c (s : Py.str) :
  Py.isspace c = false -> Py.lstrip (c :: s) = c :: s.
Proof. intros H. simpl. rewrite H. reflexivity. Qed.

Lemma lstrip_cases (s : Py.str) :
  Py.lstrip s = [] \/
  exists c s', Py.lstrip s = c :: s' /\ Py.isspace c = false.
Proof.
  induction s as [|c s IH]; [left; reflexivity|].
  simpl. destruct (Py.isspace c) eqn:E; [exact IH|].
  right. exists c, s. auto.
Qed.

Lemma rstrip_head c (s : Py.str) :
  Py.isspace c = false -> exists r, Py.rstrip (c :: s) = c :: r.
Proof.
  intros H. simpl. destruct (Py.rstrip s) as [|x r].
  - rewrite H. exists []. reflexivity.
  - exists (x :: r). reflexivity.
Qed.

Lemma rstrip_idem (s : Py.str) : Py.rstrip (Py.rstrip s) = Py.rstrip s.
Proof.
  induction s as [|c s IH]; [reflexivity|].
  simpl. destruct (Py.rstrip s) as [|x r] eqn:E.
  - destruct (Py.isspace c) eqn:Hc; [reflexivity|].
    simpl. rewrite Hc. reflexivity.
  - change (Py.rstrip (c :: x :: r))
      with (match Py.rstrip (x :: r) with
            | [] => if Py.isspace c then [] else [c]
            | y :: r' => c :: y :: r'
            end).
    rewrite IH. reflexivity.
Qed.

Lemma stripped_strip (s : Py.str) : stripped (Py.strip s).
Proof.
  unfold stripped, Py.strip. split; [|apply rstrip_idem].
  destruct (lstrip_cases s) as [->|(c & s' & -> & Hc)]; [reflexivity|].
  destruct (rstrip_head c s' Hc) as [r ->]. apply lstrip_head, Hc.
Qed.

Lemma stripped_head c (s : Py.str) :
  stripped (c :: s) -> Py.isspace c = false.
Proof.
  intros [H _]. simpl in H. destruct (Py.isspace c); [|reflexivity].
  exfalso. assert (L : forall t, List.length (Py.lstrip t) <= List.length t).
  { induction t as [|a t IH]; simpl; [lia|].
    destruct (Py.isspace a); simpl; lia. }
  specialize (L s). rewrite H in L. simpl in L. lia.
Qed.

Lemma ensure_not_too_long_stripped (d : Py.str) :
  stripped d -> stripped (Github.ensure_not_too_long d).
Proof.
  intros Hd. unfold Github.ensure_not_too_long.
  destruct (Nat.ltb 120 (Py.len d)) eqn:E; [|exact Hd].
  destruct d as [|c d]; [discriminate|].
  pose proof (stripped_head c d Hd) as Hc.
  change (Py.slice_to 117 (c :: d)) with (c :: Py.slice_to 116 d).
  destruct (rstrip_head c (Py.slice_to 116 d) Hc) as [r ->].
  split.
  - apply (lstrip_head c (r ++ Py.lit "...")), Hc.
  - change (Py.lit "...") with ([46; 46]%N ++ [46%N]).
    rewrite app_assoc. apply rstrip_snoc. reflexivity.
Qed.

(** X6.  The description [generate_description] of automate.py returns
    never starts or ends with whitespace, also after it was cut to
    length. *)
Theorem automate_description_stripped w repo_name readme d :
  result (Automate.generate_description w repo_name readme) = Ret d ->
  stripped d.
Proof.
  rewrite automate_generate_description_unfold. cbv zeta.
  unfold result, snd. intros H. injection H as <-.
  destruct (completion w _) as [e|text]; [split; reflexivity|].
  apply ensure_not_too_long_stripped, stripped_strip.
Qed.

Lemma automate_description_stripped_witness :
  stripped (Py.lit "A new description.").
Proof.
  apply (automate_description_stripped
           Demo.world (name Demo.repo1) None (Py.lit "A new description.")).
  vm_compute. reflexivity.
Defined.

(** The description of automate_ollama.py can end with whitespace: only
    the whole output is stripped, not its first line. *)
Example ollama_description_trailing_space :
  result (AutomateOllama.generate_description
            (Demo.make [] Demo.hello Demo.python_js (inl BackendError)
                       (inr (Completed 0 (list_byte_of_string "One line 
and more") [])))
            (name Demo.repo1) None)
  = Ret (Py.lit "One line ").
Proof. vm_compute. reflexivity. Qed.

(** ** The runs of the describers *)

(** What either generator does: one call of its backend, and a value of
    at most 120 characters. *)
Lemma generator_call w gen repo_name readme :
  gen = Automate.generate_description w \/
  gen = AutomateOllama.generate_description w ->
  exists e new,
    gen repo_name readme = ([e], Ret new) /\
    Py.len new <= 120 /\
    ((exists p, e = Complete p) \/ (exists a p t, e = Run a p t)).
Proof.
  intros [-> | ->].
  - rewrite automate_generate_description_unfold. cbv zeta.
    eexists _, _. split; [reflexivity|]. split.
    + destruct (completion w _); [simpl; lia|apply ensure_not_too_long_bound].
    + left. eexists. reflexivity.
  - rewrite ollama_generate_description_unfold. cbv zeta.
    eexists _, _. split; [reflexivity|]. split.
    + destruct (subprocess_run w _ _ _) as [e|run]; [simpl; lia|].
      destruct (returncode run =? 0)%Z; [|simpl; lia].
      destruct (Py.decode_utf8 (stdout run));
        [apply ensure_not_too_long_bound|simpl; lia].
    + right. eexists _, _, _. reflexivity.
Qed.

(** A turn of the loop of [main], whatever the readme fetch does. *)
Lemma describe_repo_cases w gen r :
  gen = Automate.generate_description w \/
  gen = AutomateOllama.generate_description w ->
  (exists readme e new,
      result (Github.get_readme w (GITHUB_USERNAME w) (name r)) = Ret readme /\
      Py.len new <= 120 /\
      ((exists p, e = Complete p) \/ (exists a p t, e = Run a p t)) /\
      Github.describe_repo w gen r =
      ([Get (Github.readme_url (GITHUB_USERNAME w) (name r)); e] ++
       (if Py.truthy new && negb (Py.eqb new (Github.current_description r))
        then [Patch (Github.repo_url (GITHUB_USERNAME w) (name r))
                    (PatchPayload new); Sleep 2]
        else []),
       Ret tt)) \/
  (exists err,
      result (Github.get_readme w (GITHUB_USERNAME w) (name r)) = Raise err /\
      Github.describe_repo w gen r =
      ([Get (Github.readme_url (GITHUB_USERNAME w) (name r))], Raise err)).
Proof.
  intros Hgen.
  destruct (result (Github.get_readme w (GITHUB_USERNAME w) (name r)))
    as [readme|err|] eqn:E.
  - left.
    destruct (generator_call w gen (name r) readme Hgen)
      as (e & new & Hg & Hb & He).
    exists readme, e, new. repeat (split; [solve [auto]|]).
    rewrite (describe_repo_unfold w gen r readme [e] new E Hg). reflexivity.
  - right. exists err. split; [reflexivity|].
    unfold Github.describe_repo. rewrite get_readme_pair, E. reflexivity.
  - exfalso. exact (get_readme_in_fuel w _ _ E).
Qed.


Lemma list_public_repos_from_gets_only w u :
  forall fuel acc page,
    let t := log (Github.list_public_repos_from w fuel u acc page) in
    paced t = true /\ sleeps t = 0 /\ runs t = 0.
Proof.
  induction fuel as [|fuel IH]; intros acc page; [repeat split|].
  cbv zeta. rewrite list_public_repos_from_step. cbv zeta.
  destruct (Github.http_error _); [repeat split|].
  destruct (json _) as [|x data]; [repeat split|].
  specialize (IH (acc ++ x :: data) (S page)). cbv zeta in IH.
  destruct (Github.list_public_repos_from _ _ _ _ _). exact IH.
Qed.







Lemma for_each_stops {A} (body : A -> M unit) (before after : list A) x e :
  (forall a, In a before -> result (body a) = Ret tt) ->
  result (body x) = Raise e ->
  result (for_each body (before ++ x :: after)) = Raise e /\
  log (for_each body (before ++ x :: after))
  = flat_map (fun a => log (body a)) before ++ log (body x).
Proof.
  intros Hb Hx. induction before as [|a before IH].
  - simpl. rewrite result_bind, log_bind, Hx, app_nil_r. auto.
  - simpl. rewrite result_bind, log_bind, (Hb a (or_introl eq_refl)).
    destruct IH as [IH1 IH2]; [intros b Hin; apply Hb; right; exact Hin|].
    rewrite IH1, IH2, app_assoc. auto.
Qed.

(** X9.  No isolation of errors in [main] of the describers: when the
    readme request of one repository raises (an HTTP error other than
    404, or content that does not decode), the run ends there with that
    error.  The repositories before it have had their turn, the failing
    request is the last event of the log, and the repositories after it
    are not visited. *)
Theorem describers_abort w fuel gen before r after err :
  gen = Automate.generate_description w \/
  gen = AutomateOllama.generate_description w ->
  result (Github.list_public_repos w fuel (GITHUB_USERNAME w))
  = Ret (before ++ r :: after) ->
  (forall a, In a before ->
             exists readme,
               result (Github.get_readme w (GITHUB_USERNAME w) (name a))
               = Ret readme) ->
  result (Github.get_readme w (GITHUB_USERNAME w) (name r)) = Raise err ->
  result (Github.describe_all w gen fuel) = Raise err /\
  log (Github.describe_all w gen fuel)
  = log (Github.list_public_repos w fuel (GITHUB_USERNAME w))
    ++ flat_map (fun a => log (Github.describe_repo w gen a)) before
    ++ [Get (Github.readme_url (GITHUB_USERNAME w) (name r))].
Proof.
  intros Hgen Hl Hb Hr. unfold Github.describe_all.
  rewrite result_bind, log_bind, Hl.
  assert (Hx : Github.describe_repo w gen r =
               ([Get (Github.readme_url (GITHUB_USERNAME w) (name r))],
                Raise err)).
  { destruct (describe_repo_cases w gen r Hgen)
      as [(readme & _ & _ & E & _)|(err' & E & ->)]; congruence. }
  destruct (for_each_stops (Github.describe_repo w gen) before after r err)
    as [R L].
  - intros a Ha. destruct (Hb a Ha) as [readme E].
    apply (describe_repo_returns w gen a readme Hgen E).
  - rewrite Hx. reflexivity.
  - rewrite R, L, Hx. auto.
Qed.

Lemma describers_abort_witness :
  result (Automate.main Demo.world_readme_down 5) = Raise (HTTPError 500) /\
  log (Automate.main Demo.world_readme_down 5)
  = log (Github.list_public_repos Demo.world_readme_down 5 Demo.user)
    ++ flat_map (fun a => log (Github.describe_repo
                                 Demo.world_readme_down
                                 (Automate.generate_description
                                    Demo.world_readme_down) a))
                [Demo.repo2]
    ++ [Get (Github.readme_url Demo.user (name Demo.repo1))].
Proof.
  apply (describers_abort
           Demo.world_readme_down 5
           (Automate.generate_description Demo.world_readme_down)
           [Demo.repo2] Demo.repo1 [Demo.repo3] (HTTPError 500)).
  - left. reflexivity.
  - vm_compute. reflexivity.
  - intros a [<-|[]]. exists None. vm_compute. reflexivity.
  - vm_compute. reflexivity.
Defined.

(** ** The languages of the summary *)

Lemma StronglySorted_app_inv {A} (R : A -> A -> Prop) (a b : list A) :
  StronglySorted R (a ++ b) ->
  forall x y, In x a -> In y b -> R x y.
Proof.
  induction a as [|c a IH]; intros H x y Hx Hy; [destruct Hx|].
  simpl in H. apply StronglySorted_inv in H as [Hs Hc].
  destruct Hx as [<-|Hx].
  - rewrite Forall_forall in Hc. apply Hc, in_or_app. right. exact Hy.
  - apply IH; assumption.
Qed.

(** X10.  The languages named in the prompt and in the fallback summary
    are the largest ones: [top_languages] takes three languages of the
    mapping (all of them when there are fewer), and no language it
    leaves out has more bytes than one it takes. *)
Theorem top_languages_largest (languages : langs) :
  exists rest,
    Permutation (GithubSummarizer.top_languages languages ++ rest) languages /\
    List.length (GithubSummarizer.top_languages languages)
    = Nat.min 3 (List.length languages) /\
    forall x y,
      In x (GithubSummarizer.top_languages languages) -> In y rest ->
      (snd y <= snd x)%Z.
Proof.
  unfold GithubSummarizer.top_languages.
  set (sorted := sort_desc GithubSummarizer.count_lt languages).
  exists (skipn 3 sorted). split; [|split].
  - rewrite firstn_skipn. apply sort_desc_perm.
  - rewrite length_firstn. unfold sorted.
    rewrite (Permutation_length
               (sort_desc_perm GithubSummarizer.count_lt languages)).
    reflexivity.
  - intros x y Hx Hy.
    pose proof (sort_desc_sorted GithubSummarizer.count_lt
                                 count_lt_asym count_ge_trans languages) as S.
    fold sorted in S. rewrite <- (firstn_skipn 3 sorted) in S.
    pose proof (StronglySorted_app_inv _ _ _ S x y Hx Hy) as H.
    unfold GithubSummarizer.count_lt in H. lia.
Qed.

(** X11.  Languages with the same number of bytes keep the order of the
    mapping when [generate_project_summary] ranks them: the ranking is
    the mapping's own order within every group of equal counts. *)
Theorem top_languages_ties (languages : langs) (n : Z) :
  filter (fun x => (snd x =? n)%Z)
         (sort_desc GithubSummarizer.count_lt languages)
  = filter (fun x => (snd x =? n)%Z) languages.
Proof.
  pose proof (sort_desc_stable GithubSummarizer.count_lt count_ge_trans
                               ([], n) languages) as H.
  assert (E : forall l : langs,
             filter (fun b => negb (GithubSummarizer.count_lt ([], n) b)
                              && negb (GithubSummarizer.count_lt b ([], n))) l
             = filter (fun x => (snd x =? n)%Z) l).
  { intros l. apply filter_ext. intros [k v].
    unfold GithubSummarizer.count_lt. simpl.
    destruct (Z.ltb_spec n v), (Z.ltb_spec v n), (Z.eqb_spec v n);
      simpl; try reflexivity; lia. }
  rewrite !E in H. exact H.
Qed.

Example lang_info_ties :
  GithubSummarizer.lang_info Demo.many_languages = Py.lit "Rust, Python, C".
Proof. vm_compute. reflexivity. Qed.

(** ** The statistics line *)



(** ** The prompt of the summarizer *)

(** X13.  Only the first 2000 characters of a readme reach the prompt of
    [generate_project_summary]: for two readmes that agree on them the
    runner gets the same request and the summary is the same. *)
Theorem summary_prompt_excerpt w repo_name r1 r2 languages :
  Py.slice_to 2000 r1 = Py.slice_to 2000 r2 ->
  GithubSummarizer.generate_project_summary w repo_name r1 languages
  = GithubSummarizer.generate_project_summary w repo_name r2 languages.
Proof.
  intros E. rewrite !generate_project_summary_unfold. cbv zeta.
  assert (P : GithubSummarizer.prompt repo_name r1 languages
              = GithubSummarizer.prompt repo_name r2 languages)
    by (unfold GithubSummarizer.prompt; cbv zeta; rewrite E; reflexivity).
  rewrite P. reflexivity.
Qed.

Lemma summary_prompt_excerpt_witness :
  GithubSummarizer.generate_project_summary
    Demo.world (name Demo.repo1) (repeat 97%N 2000 ++ Py.lit "x")
    (json Demo.python_js)
  = GithubSummarizer.generate_project_summary
      Demo.world (name Demo.repo1) (repeat 97%N 2000 ++ Py.lit "yz")
      (json Demo.python_js).
Proof.
  apply (summary_prompt_excerpt
           Demo.world (name Demo.repo1)
           (repeat 97%N 2000 ++ Py.lit "x")
           (repeat 97%N 2000 ++ Py.lit "yz") (json Demo.python_js)).
  vm_compute. reflexivity.
Defined.

(** ** The report: timestamps and headings *)

Lemma report_sections_raises w :
  forall projects i report,
    Exists (fun p => month_year w (created_at p) = None \/
                     month_day_year w (updated_at p) = None) projects ->
    result (GithubSummarizer.report_sections w i projects report)
    = Raise ValueError.
Proof.
  induction projects as [|p rest IH]; intros i report H;
    [inversion H|].
  simpl. rewrite result_bind.
  unfold GithubSummarizer.project_section at 1, GithubSummarizer.reformat.
  destruct (month_year w (created_at p)) eqn:Ec; [|reflexivity].
  rewrite bind_ret_l.
  destruct (month_day_year w (updated_at p)) eqn:Eu; [|reflexivity].
  rewrite bind_ret_l. unfold ret. rewrite result_pair.
  apply IH. apply Exists_cons in H as [[H|H]|H]; [congruence|congruence|].
  exact H.
Qed.

(** X14.  [generate_markdown_report] gives a report when the service's
    timestamps of every project can be read, and otherwise none at all:
    one [created_at] or [updated_at] that [strptime] refuses makes the
    whole call raise [ValueError]. *)
Theorem report_needs_timestamps w projects :
  (Forall (fun p => month_year w (created_at p) <> None /\
                    month_day_year w (updated_at p) <> None) projects ->
   exists text,
     GithubSummarizer.generate_markdown_report w projects = ([], Ret text)) /\
  (Exists (fun p => month_year w (created_at p) = None \/
                    month_day_year w (updated_at p) = None) projects ->
   GithubSummarizer.generate_markdown_report w projects
   = ([], Raise ValueError)).
Proof.
  split; intros H;
    rewrite (pair_log_result
               (GithubSummarizer.generate_markdown_report w projects));
    rewrite generate_markdown_report_log;
    unfold GithubSummarizer.generate_markdown_report; rewrite result_bind.
  - rewrite Forall_forall in H.
    destruct (report_sections_returns
                w projects 1
                (GithubSummarizer.report_header
                   w (List.length projects)
                   (GithubSummarizer.sum_Z
                      (map (fun p => GithubSummarizer.get0 (stargazers_count p))
                           projects))
                   (GithubSummarizer.sum_Z
                      (map (fun p => GithubSummarizer.get0 (forks_count p))
                           projects))) H) as [text ->].
    eexists. reflexivity.
  - rewrite (report_sections_raises w projects 1 _ H). reflexivity.
Qed.

Lemma report_needs_timestamps_witness :
  GithubSummarizer.generate_markdown_report
    Demo.world [Demo.repo1; Demo.repo_undated] = ([], Raise ValueError).
Proof.
  apply (proj2 (report_needs_timestamps
                  Demo.world [Demo.repo1; Demo.repo_undated])).
  apply Exists_cons_tl, Exists_cons_hd. left. vm_compute. reflexivity.
Defined.

Lemma project_section_starts w i p s :
  GithubSummarizer.project_section w i p = ([], Ret s) ->
  exists rest,
    s = Py.lit "### " ++ Py.str_of_nat i ++ Py.lit ". [" ++ name p
          ++ Py.lit "](" ++ html_url p ++ Py.lit ")" ++ rest.
Proof.
  unfold GithubSummarizer.project_section, GithubSummarizer.reformat.
  destruct (month_year w _); [|discriminate]. rewrite bind_ret_l.
  destruct (month_day_year w _); [|discriminate]. rewrite bind_ret_l.
  intros H.
  pose proof (f_equal (fun m : M Py.str =>
                         match snd m with Ret a => a | _ => [] end) H) as E.
  cbv beta iota delta [snd ret] in E. clear H.
  match type of E with
  | context [html_url p ++ Py.lit ?l ++ _] =>
    destruct (startswith_split (Py.lit l) (Py.lit ")")
                               ltac:(vm_compute; reflexivity)) as [Q HQ];
      rewrite HQ in E
  end.
  rewrite <- E. eexists. rewrite <- !app_assoc. reflexivity.
Qed.

(** X15.  The sections of the report are numbered 1, 2, 3, .. in the
    order of the projects: the section of the project at position k
    (from 0) starts with the heading "### k+1. [name](html_url)". *)
Theorem sections_numbered w projects sections k p s :
  sections_of w 1 projects sections ->
  nth_error projects k = Some p ->
  nth_error sections k = Some s ->
  exists rest,
    s = Py.lit "### " ++ Py.str_of_nat (S k) ++ Py.lit ". [" ++ name p
          ++ Py.lit "](" ++ html_url p ++ Py.lit ")" ++ rest.
Proof.
  assert (G : forall projects sections i k,
             sections_of w i projects sections ->
             nth_error projects k = Some p ->
             nth_error sections k = Some s ->
             GithubSummarizer.project_section w (i + k) p = ([], Ret s)).
  { clear. induction projects as [|q projects IH];
      intros sections i k H Hp Hs; [destruct k; discriminate|].
    unfold sections_of, enumerate in H. simpl in H.
    inversion H as [|ip s0 l l' H0 Hrest]; subst.
    destruct k as [|k]; simpl in Hp, Hs.
    - injection Hp as ->. injection Hs as ->.
      rewrite Nat.add_0_r. exact H0.
    - rewrite Nat.add_succ_r. apply (IH l' (S i) k); assumption. }
  intros H Hp Hs. apply (project_section_starts w (S k)).
  exact (G projects sections 1 k H Hp Hs).
Qed.

Lemma sections_numbered_witness :
  exists rest,
    Demo.section1
    = Py.lit "### " ++ Py.str_of_nat 1 ++ Py.lit ". ["
        ++ name (enrich Demo.world Demo.repo1) ++ Py.lit "]("
        ++ html_url (enrich Demo.world Demo.repo1) ++ Py.lit ")" ++ rest.
Proof.
  apply (sections_numbered
           Demo.world [enrich Demo.world Demo.repo1] [Demo.section1] 0
           (enrich Demo.world Demo.repo1) Demo.section1).
  - constructor; [vm_compute; reflexivity|constructor].
  - reflexivity.
  - reflexivity.
Defined.

(** ** The runs of the summarizer *)

Lemma runs_app (t t' : list event) : runs (t ++ t') = runs t + runs t'.
Proof.
  induction t as [|e t IH]; simpl; [reflexivity|].
  destruct e; simpl; rewrite IH; reflexivity.
Qed.

Lemma sleeps_app (t t' : list event) :
  sleeps (t ++ t') = sleeps t + sleeps t'.
Proof.
  induction t as [|e t IH]; simpl; [reflexivity|].
  destruct e; simpl; rewrite IH; reflexivity.
Qed.

(** The log of a turn that keeps its repository. *)
Lemma collect_kept_log w r rest acc c s :
  result (Github.get_readme w (GITHUB_USERNAME w) (name r))
  = Ret (Some (c :: s)) ->
  exists prompt,
    log (GithubSummarizer.collect w (r :: rest) acc) =
    [Get (Github.readme_url (GITHUB_USERNAME w) (name r));
     Get (Github.languages_url (GITHUB_USERNAME w) (name r));
     Run (GithubSummarizer.argv w) prompt 180;
     Sleep 2]
      ++ log (GithubSummarizer.collect w rest (acc ++ [enrich w r])).
Proof.
  intros H.
  pose proof (get_repo_languages_unfold w (GITHUB_USERNAME w) (name r)) as HL.
  cbv zeta in HL.
  set (L := if (status_code _ =? 200)%Z then _ else _) in HL.
  pose proof (generate_project_summary_unfold w (name r) (c :: s) L) as HS.
  cbv zeta in HS.
  set (S := match subprocess_run w _ _ _ with inl _ => _ | inr _ => _ end)
    in HS.
  unfold enrich. cbv zeta. rewrite H, HL, result_pair, HS, result_pair.
  simpl GithubSummarizer.collect. unfold GithubSummarizer.get_readme.
  rewrite get_readme_pair, H, bind_pair. cbv beta iota.
  rewrite HL, bind_pair. cbv beta.
  rewrite HS, bind_pair. cbv beta.
  destruct (GithubSummarizer.collect w rest _) as [t o].
  rewrite !log_pair.
  exists (GithubSummarizer.prompt (name r) (c :: s) L). reflexivity.
Qed.

(** In every run of the loop: no update is sent, every call of the model
    is followed by one sleep, and the model is called at most once per
    repository with a readme -- exactly once when no fetch raises. *)
Lemma collect_census w :
  forall all_repos acc,
    let t := log (GithubSummarizer.collect w all_repos acc) in
    patches t = [] /\
    runs t = sleeps t /\
    runs t <= List.length (filter (has_readme w) all_repos) /\
    ((forall r, In r all_repos ->
                exists readme,
                  result (Github.get_readme w (GITHUB_USERNAME w) (name r))
                  = Ret readme) ->
     runs t = List.length (filter (has_readme w) all_repos)).
Proof.
  induction all_repos as [|r rest IH]; intros acc; cbv zeta.
  - repeat split; simpl; lia.
  - destruct (result (Github.get_readme w (GITHUB_USERNAME w) (name r)))
      as [[[|c s]|]|e|] eqn:E.
    + destruct (collect_skipped w r rest acc (or_intror E)) as [Hh ->].
      rewrite log_pair. simpl filter. rewrite Hh.
      destruct (IH acc) as (P & Q & R & S). simpl.
      repeat (split; [assumption|]).
      intros Hall. apply S. intros r' Hr'. apply Hall. right. exact Hr'.
    + destruct (collect_kept_log w r rest acc c s E) as [prompt ->].
      destruct (collect_kept w r rest acc c s E) as [Hh _].
      simpl filter. rewrite Hh.
      destruct (IH (acc ++ [enrich w r])) as (P & Q & R & S).
      rewrite patches_app, runs_app, sleeps_app. simpl.
      split; [exact P|]. split; [lia|]. split; [lia|].
      intros Hall. f_equal. apply S. intros r' Hr'. apply Hall. right.
      exact Hr'.
    + destruct (collect_skipped w r rest acc (or_introl E)) as [Hh ->].
      rewrite log_pair. simpl filter. rewrite Hh.
      destruct (IH acc) as (P & Q & R & S). simpl.
      repeat (split; [assumption|]).
      intros Hall. apply S. intros r' Hr'. apply Hall. right. exact Hr'.
    + simpl GithubSummarizer.collect. unfold GithubSummarizer.get_readme.
      rewrite get_readme_pair, E. simpl.
      split; [reflexivity|]. split; [reflexivity|]. split; [lia|].
      intros Hall. destruct (Hall r (or_introl eq_refl)) as [readme F].
      congruence.
    + exfalso. exact (get_readme_in_fuel w _ _ E).
Qed.

(** The log of [main] up to the report. *)
Lemma main_log w fuel :
  exists tail,
    log (GithubSummarizer.main w fuel)
    = log (Github.list_public_repos w fuel (GITHUB_USERNAME w))
      ++ match result (Github.list_public_repos
                         w fuel (GITHUB_USERNAME w)) with
         | Ret all_repos => log (GithubSummarizer.collect w all_repos []) ++ tail
         | _ => []
         end /\
    (tail = [] \/
     exists f text,
       tail = [WriteFile f text] /\
       result (GithubSummarizer.main w fuel) = Ret tt /\
       f = Py.lit "github_projects_report_" ++ timestamp w ++ Py.lit ".md").
Proof.
  unfold GithubSummarizer.main, GithubSummarizer.list_public_repos.
  rewrite log_bind, result_bind.
  destruct (result (Github.list_public_repos w fuel (GITHUB_USERNAME w)))
    as [all_repos|e|]; [|exists []; auto|exists []; auto].
  rewrite log_bind, result_bind.
  destruct (result (GithubSummarizer.collect w all_repos []))
    as [kept|e|]; [|exists []; rewrite app_nil_r; auto
                   |exists []; rewrite app_nil_r; auto].
  destruct kept as [|p ps];
    [exists []; split; [reflexivity|left; reflexivity]|].
  cbv beta iota.
  rewrite log_bind, result_bind, generate_markdown_report_log.
  destruct (result (GithubSummarizer.generate_markdown_report w _))
    as [text|e|]; [|exists []; auto|exists []; auto].
  eexists. split; [reflexivity|]. right. eexists _, _.
  split; [reflexivity|]. split; reflexivity.
Qed.

(** X16.  The summarizer only reads from the hosting service: no run of
    its [main] sends a description update.  And it pauses as often as it
    calls the model: the numbers of runner calls and of sleeps in a run
    are equal. *)
Theorem summarizer_read_only w fuel :
  patches (log (GithubSummarizer.main w fuel)) = [] /\
  runs (log (GithubSummarizer.main w fuel))
  = sleeps (log (GithubSummarizer.main w fuel)).
Proof.
  destruct (main_log w fuel) as (tail & -> & Ht).
  rewrite patches_app, runs_app, sleeps_app.
  unfold Github.list_public_repos at 1 3 5.
  rewrite list_public_repos_from_patches.
  destruct (list_public_repos_from_gets_only
              w (GITHUB_USERNAME w) fuel [] 1) as (_ & -> & ->).
  destruct (result (Github.list_public_repos w fuel (GITHUB_USERNAME w)))
    as [all_repos|e|]; [|split; reflexivity|split; reflexivity].
  destruct (collect_census w all_repos []) as (P & Q & _).
  rewrite patches_app, runs_app, sleeps_app, P, Q.
  destruct Ht as [->|(f & text & -> & _)]; split; simpl; lia || reflexivity.
Qed.



(** X18.  The report file is the last thing a run of the summarizer
    does: a run writes either nothing, or exactly one file, named
    github_projects_report_<timestamp>.md; and a run that does not
    return normally (an error of the listing, of a readme fetch or of
    the report) has written nothing. *)
Theorem summarizer_writes_last w fuel :
  writes (log (GithubSummarizer.main w fuel)) = [] \/
  (result (GithubSummarizer.main w fuel) = Ret tt /\
   exists text,
     writes (log (GithubSummarizer.main w fuel))
     = [(Py.lit "github_projects_report_" ++ timestamp w ++ Py.lit ".md",
         text)]).
Proof.
  destruct (main_log w fuel) as (tail & E & Ht). rewrite E.
  rewrite writes_app. unfold Github.list_public_repos at 1 3.
  rewrite list_public_repos_from_writes. simpl app.
  destruct (result (Github.list_public_repos w fuel (GITHUB_USERNAME w)))
    as [all_repos|e|]; [|left; reflexivity|left; reflexivity].
  rewrite writes_app, collect_writes. simpl app.
  destruct Ht as [->|(f & text & -> & R & ->)]; [left; reflexivity|].
  right. split; [exact R|]. exists text. reflexivity.
Qed.

(** X19.  Nothing to report: when the listing returns, no readme fetch
    raises and no repository has a readme, the summarizer returns
    normally without writing a file and without calling the model. *)
Theorem summarizer_nothing_documented w fuel all_repos :
  result (Github.list_public_repos w fuel (GITHUB_USERNAME w))
  = Ret all_repos ->
  (forall r, In r all_repos ->
             exists readme,
               result (Github.get_readme w (GITHUB_USERNAME w) (name r))
               = Ret readme) ->
  filter (has_readme w) all_repos = [] ->
  result (GithubSummarizer.main w fuel) = Ret tt /\
  writes (log (GithubSummarizer.main w fuel)) = [] /\
  runs (log (GithubSummarizer.main w fuel)) = 0.
Proof.
  intros Hl Hall Hk.
  pose proof (collect_returns w all_repos [] Hall) as Hc.
  rewrite Hk in Hc. simpl in Hc.
  destruct (collect_census w all_repos []) as (_ & _ & Hr & _).
  rewrite Hk in Hr. simpl in Hr.
  unfold GithubSummarizer.main, GithubSummarizer.list_public_repos.
  rewrite result_bind, log_bind, Hl, result_bind, log_bind, Hc.
  cbv beta iota. split; [reflexivity|].
  rewrite !writes_app, !runs_app, collect_writes.
  unfold Github.list_public_repos.
  rewrite list_public_repos_from_writes.
  destruct (list_public_repos_from_gets_only
              w (GITHUB_USERNAME w) fuel [] 1) as (_ & _ & ->).
  split; [reflexivity|]. simpl. lia.
Qed.

Lemma summarizer_nothing_documented_witness :
  result (GithubSummarizer.main Demo.world_undocumented 5) = Ret tt /\
  writes (log (GithubSummarizer.main Demo.world_undocumented 5)) = [] /\
  runs (log (GithubSummarizer.main Demo.world_undocumented 5)) = 0.
Proof.
  apply (summarizer_nothing_documented Demo.world_undocumented 5
                                       [Demo.repo2]).
  - vm_compute. reflexivity.
  - intros r [<-|[]]. eexists. vm_compute. reflexivity.
  - vm_compute. reflexivity.
Defined.





(** ** Languages that could not be fetched *)

Lemma project_section_unknown w i p s :
  languages p = Some [] \/ languages p = None ->
  GithubSummarizer.project_section w i p = ([], Ret s) ->
  contains s (Py.lit "**Technologies:** `Unknown`").
Proof.
  intros Hl.
  assert (N : Py.lit "**Technologies:** `Unknown`"
              = Py.lit "**Technologies:** " ++ Py.lit "`Unknown`" ++ [])
    by (vm_compute; reflexivity).
  rewrite N.
  unfold GithubSummarizer.project_section, GithubSummarizer.reformat.
  destruct (month_year w _); [|discriminate]. rewrite bind_ret_l.
  destruct (month_day_year w _); [|discriminate]. rewrite bind_ret_l.
  intros H.
  pose proof (f_equal (fun m : M Py.str =>
                         match snd m with Ret a => a | _ => [] end) H) as E.
  cbv beta iota delta [snd ret] in E. clear H. rewrite <- E.
  assert (B : match languages p with Some l => l | None => [] end = [])
    by (destruct Hl as [-> | ->]; reflexivity).
  rewrite B. cbn [map firstn fst].
  do 6 apply contains_prefix.
  apply contains_between; vm_compute; reflexivity.
Qed.

(** X21.  A languages request that is refused leaves no trace of the
    failure: the repository is kept with an empty language mapping, its
    section of the report names the technologies as `Unknown`, and its
    prompt names them as Unknown -- exactly as for a repository that has
    no languages. *)
Theorem refused_languages_unknown w r :
  status_code (get_languages_response
                 w (Github.languages_url (GITHUB_USERNAME w) (name r)))
  <> 200%Z ->
  languages (enrich w r) = Some [] /\
  (forall i s,
      GithubSummarizer.project_section w i (enrich w r) = ([], Ret s) ->
      contains s (Py.lit "**Technologies:** `Unknown`")) /\
  GithubSummarizer.lang_info
    (match languages (enrich w r) with Some l => l | None => [] end)
  = Py.lit "Unknown".
Proof.
  intros H.
  assert (L : languages (enrich w r) = Some []).
  { unfold enrich. cbv zeta. rewrite get_repo_languages_unfold. cbv zeta.
    rewrite result_pair. apply Z.eqb_neq in H. rewrite H. reflexivity. }
  split; [exact L|]. split.
  - intros i s. apply project_section_unknown. left. exact L.
  - rewrite L. reflexivity.
Qed.

Lemma refused_languages_unknown_witness :
  languages (enrich Demo.world_refused Demo.repo1) = Some [].
Proof.
  apply (refused_languages_unknown Demo.world_refused Demo.repo1).
  vm_compute. discriminate.
Defined.

(** ** The start of the scripts *)

Lemma truthy_opt_some (o : option Py.str) :
  Py.truthy_opt o = true <-> exists v, o = Some v /\ v <> [].
Proof.
  destruct o as [[|c s]|]; simpl; split; intros H; try discriminate.
  - destruct H as (v & H & Hne). injection H as <-. congruence.
  - exists (c :: s). split; [reflexivity|discriminate].
  - reflexivity.
  - destruct H as (v & H & _). discriminate.
Qed.

(** X22.  automate.py starts exactly when GITHUB_TOKEN, OPENAI_API_KEY
    and GITHUB_USERNAME are all set to non-empty values; a variable that
    is set to the empty string counts as missing. *)
Theorem automate_starts env :
  (exists c, Startup.automate env = Startup.Configured c) <->
  (forall key,
      In key [Py.lit "GITHUB_TOKEN"; Py.lit "OPENAI_API_KEY";
              Py.lit "GITHUB_USERNAME"] ->
      exists v, env key = Some v /\ v <> []).
Proof.
  unfold Startup.automate, Startup.all, Startup.getenv. cbv zeta.
  simpl forallb. split.
  - intros [c H].
    destruct (Py.truthy_opt (env (Py.lit "GITHUB_TOKEN"))) eqn:E1;
      [|discriminate].
    destruct (Py.truthy_opt (env (Py.lit "OPENAI_API_KEY"))) eqn:E2;
      [|discriminate].
    destruct (Py.truthy_opt (env (Py.lit "GITHUB_USERNAME"))) eqn:E3;
      [|discriminate].
    intros key [<-|[<-|[<-|[]]]]; apply truthy_opt_some; assumption.
  - intros H.
    rewrite (proj2 (truthy_opt_some _) (H _ (or_introl eq_refl))).
    rewrite (proj2 (truthy_opt_some _)
                   (H _ (or_intror (or_introl eq_refl)))).
    rewrite (proj2 (truthy_opt_some _)
                   (H _ (or_intror (or_intror (or_introl eq_refl))))).
    eexists. reflexivity.
Qed.

(** X23.  automate_ollama.py and github_summarizer.py start exactly when
    GITHUB_TOKEN and GITHUB_USERNAME have non-empty values, each taken
    from the environment when it is set there and from the .env file
    only otherwise -- so a variable set to the empty string in the
    environment hides the file's value.  The model name is then the one
    of the environment, else the one of the file, else
    "llama3.2:latest"; a model name set to the empty string is kept. *)
Theorem local_starts file env :
  ((exists c, Startup.local file env = Startup.Configured c) <->
   (forall key,
       In key [Py.lit "GITHUB_TOKEN"; Py.lit "GITHUB_USERNAME"] ->
       exists v,
         v <> [] /\
         (env key = Some v \/ env key = None /\ file key = Some v))) /\
  (forall c,
      Startup.local file env = Startup.Configured c ->
      Startup.model c
      = match env (Py.lit "OLLAMA_MODEL") with
        | Some v => v
        | None =>
          match file (Py.lit "OLLAMA_MODEL") with
          | Some v => v
          | None => Py.lit "llama3.2:latest"
          end
        end).
Proof.
  assert (V : forall key,
             Py.truthy_opt (Startup.load_dotenv file env key) = true <->
             exists v,
               v <> [] /\
               (env key = Some v \/ env key = None /\ file key = Some v)).
  { intros key. rewrite truthy_opt_some. unfold Startup.load_dotenv.
    destruct (env key) as [v|].
    - split.
      + intros (v' & H & Hne). injection H as <-. exists v. auto.
      + intros (v' & Hne & [H|[H _]]); [|discriminate].
        injection H as <-. exists v. auto.
    - split.
      + intros (v & H & Hne). exists v. auto.
      + intros (v & Hne & [H|[_ H]]); [discriminate|]. exists v. auto. }
  unfold Startup.local, Startup.all, Startup.getenv,
    Startup.getenv_default. cbv zeta. simpl forallb. split; [split|].
  - intros [c H].
    destruct (Py.truthy_opt
                (Startup.load_dotenv file env (Py.lit "GITHUB_TOKEN")))
             eqn:E1; [|discriminate].
    destruct (Py.truthy_opt
                (Startup.load_dotenv file env (Py.lit "GITHUB_USERNAME")))
             eqn:E2; [|discriminate].
    intros key [<-|[<-|[]]]; apply V; assumption.
  - intros H.
    rewrite (proj2 (V _) (H _ (or_introl eq_refl))).
    rewrite (proj2 (V _) (H _ (or_intror (or_introl eq_refl)))).
    eexists. reflexivity.
  - intros c H.
    destruct (negb _); [discriminate|]. injection H as <-.
    unfold Startup.load_dotenv. simpl.
    destruct (env (Py.lit "OLLAMA_MODEL")); [reflexivity|].
    destruct (file (Py.lit "OLLAMA_MODEL")); reflexivity.
Qed.

Lemma local_starts_witness :
  Startup.model
    (Startup.Settings (Some (Py.lit "t0ken")) None (Some Demo.user) [])
  = [].
Proof.
  apply (proj2 (local_starts Demo.dotenv_file Demo.env_local)
               (Startup.Settings (Some (Py.lit "t0ken")) None
                                 (Some Demo.user) [])).
  vm_compute. reflexivity.
Defined.

(** X24.  An environment that starts automate.py starts the two other
    scripts as well, whatever the .env file holds, and they run with the
    same token and user name: the file cannot replace what the
    environment sets. *)
Theorem startup_compatible env c file :
  Startup.automate env = Startup.Configured c ->
  exists c',
    Startup.local file env = Startup.Configured c' /\
    Startup.token c' = Startup.token c /\
    Startup.username c' = Startup.username c.
Proof.
  unfold Startup.automate, Startup.local, Startup.all, Startup.getenv.
  cbv zeta. simpl forallb. intros H.
  destruct (env (Py.lit "GITHUB_TOKEN")) as [t|] eqn:E1;
    [|discriminate].
  destruct (Py.truthy_opt (Some t)) eqn:T1; [|discriminate].
  destruct (env (Py.lit "OPENAI_API_KEY")) as [k|] eqn:E2;
    [|discriminate].
  destruct (Py.truthy_opt (Some k)) eqn:T2; [|discriminate].
  destruct (env (Py.lit "GITHUB_USERNAME")) as [u|] eqn:E3;
    [|discriminate].
  destruct (Py.truthy_opt (Some u)) eqn:T3; [|discriminate].
  simpl in H. injection H as <-.
  unfold Startup.load_dotenv. rewrite E1, E3, T1, T3. simpl.
  eexists. split; [reflexivity|]. split; reflexivity.
Qed.

Lemma startup_compatible_witness :
  exists c',
    Startup.local Demo.dotenv_file Demo.env_full = Startup.Configured c' /\
    Startup.token c' = Some (Py.lit "t0ken") /\
    Startup.username c' = Some Demo.user.
Proof.
  apply (startup_compatible
           Demo.env_full
           (Startup.Settings (Some (Py.lit "t0ken")) (Some (Py.lit "sk-1"))
                             (Some Demo.user) [])
           Demo.dotenv_file).
  vm_compute. reflexivity.
Defined.

Example startup_examples :
  Startup.automate Demo.env_local
  = Startup.Refused (Py.lit "Please set GITHUB_TOKEN, OPENAI_API_KEY, and GITHUB_USERNAME environment variables.") /\
  Startup.local Demo.no_file Demo.env_local
  = Startup.Refused (Py.lit "Please set GITHUB_TOKEN and GITHUB_USERNAME environment variables.") /\
  Startup.local Demo.dotenv_file Demo.env_full
  = Startup.Configured
      (Startup.Settings (Some (Py.lit "t0ken")) None (Some Demo.user)
                        (Py.lit "mistral")) /\
  Startup.local Demo.no_file Demo.env_full
  = Startup.Configured
      (Startup.Settings (Some (Py.lit "t0ken")) None (Some Demo.user)
                        (Py.lit "llama3.2:latest")).
Proof. split; [|split; [|split]]; vm_compute; reflexivity. Qed.
